(** * wb2k: welcome bot connection supervisor and one-shot sender

    A shallow embedding of [wb2k/__main__.py] and [wb2k/sendMessage.py].

    The Python code talks to three collaborators: the Slack client
    ([SlackClient]: [rtm_connect], [rtm_read], [rtm_send_message],
    [api_call]), the [logging] module and the clock ([time.sleep]).  The
    embedding threads a [world] through every call: the world counts the
    calls made to the client so far, holds the logger configuration and
    records every observable action in a trace.  What the remote service
    answers is given by a [SlackClient] record of oracles, indexed by the
    number of the call.  Python exceptions (including [SystemExit]) are the
    [Raise] results of a small state-and-exception monad. *)

From Stdlib Require Import String Ascii List ZArith QArith Bool Lia Arith.
From Stdlib Require Import DecimalString.
Import ListNotations.
Local Open Scope string_scope.
Local Open Scope Z_scope.

(* ===================================================================== *)
(** ** Python values *)
(* ===================================================================== *)

(** The values [json.loads] builds for an RTM event (floats left out). *)
#[warnings="-register-all"]
Inductive pyval : Type :=
| PNone
| PBool (b : bool)
| PInt (z : Z)
| PStr (s : string)
| PList (l : list pyval)
| PDict (d : list (string * pyval)).

(** A dict is kept as an association list with distinct keys. *)
Definition pydict : Type := list (string * pyval).

(** An inbound RTM event. *)
Definition message : Type := pydict.

(** [d.get(k)]: the value stored under [k], [None] when there is none. *)
Fixpoint dict_get (d : pydict) (k : string) : pyval :=
  match d with
  | [] => PNone
  | (k', v) :: rest => if String.eqb k' k then v else dict_get rest k
  end.

(** Truth value of an object, as [if x], [not x] and [and] test it. *)
Definition truthy (v : pyval) : bool :=
  match v with
  | PNone => false
  | PBool b => b
  | PInt z => negb (z =? 0)
  | PStr s => negb (String.eqb s EmptyString)
  | PList l => match l with [] => false | _ => true end
  | PDict d => match d with [] => false | _ => true end
  end.

(** [v == s] for a string [s]: only an equal string is equal to it. *)
Definition py_eq_str (v : pyval) (s : string) : bool :=
  match v with
  | PStr t => String.eqb t s
  | _ => false
  end.

(** *** [str] and [repr] (Python 3, text kept as UTF-8 bytes) *)

Definition dquote : ascii := ascii_of_nat 34.
Definition squote : ascii := ascii_of_nat 39.
Definition backslash : ascii := ascii_of_nat 92.
Definition newline : ascii := ascii_of_nat 10.
Definition char (c : ascii) : string := String c EmptyString.

Fixpoint mem_char (c : ascii) (s : string) : bool :=
  match s with
  | EmptyString => false
  | String c' s' => Ascii.eqb c c' || mem_char c s'
  end.

Definition hex_digit (n : nat) : string :=
  String.substring n 1 "0123456789abcdef".

Definition repr_char (quote c : ascii) : string :=
  let n := nat_of_ascii c in
  if Ascii.eqb c quote || Ascii.eqb c backslash then String backslash (char c)
  else if Nat.eqb n 9 then String backslash "t"
  else if Nat.eqb n 10 then String backslash "n"
  else if Nat.eqb n 13 then String backslash "r"
  else if Nat.ltb n 32 || Nat.eqb n 127
       then String backslash "x" ++ hex_digit (n / 16) ++ hex_digit (n mod 16)
  else char c.

Fixpoint repr_chars (quote : ascii) (s : string) : string :=
  match s with
  | EmptyString => EmptyString
  | String c s' => repr_char quote c ++ repr_chars quote s'
  end.

Definition repr_str (s : string) : string :=
  let quote := if mem_char squote s && negb (mem_char dquote s)
               then dquote else squote in
  String quote (repr_chars quote s ++ char quote).

Definition str_Z (z : Z) : string := NilZero.string_of_int (Z.to_int z).

Fixpoint join (sep : string) (l : list string) : string :=
  match l with
  | [] => EmptyString
  | [x] => x
  | x :: rest => x ++ sep ++ join sep rest
  end.

Fixpoint py_repr (v : pyval) : string :=
  match v with
  | PNone => "None"
  | PBool true => "True"
  | PBool false => "False"
  | PInt z => str_Z z
  | PStr s => repr_str s
  | PList l => "[" ++ join ", " (map py_repr l) ++ "]"
  | PDict d =>
      "{" ++ join ", " (map (fun kv => match kv with
                                       | (k, x) => repr_str k ++ ": " ++ py_repr x
                                       end) d) ++ "}"
  end.

(** [str(v)], which is what ["{}".format(v)] inserts. *)
Definition py_str (v : pyval) : string :=
  match v with
  | PStr s => s
  | _ => py_repr v
  end.

(* ===================================================================== *)
(** ** Exceptions, the world and the monad *)
(* ===================================================================== *)

Inductive exn : Type :=
| AttributeError
| TypeError
| WebSocketConnectionClosedException
| SystemExit (code : string).   (* [sys.exit(text)]: text to stderr, status 1 *)

Definition exn_eqb (a b : exn) : bool :=
  match a, b with
  | AttributeError, AttributeError => true
  | TypeError, TypeError => true
  | WebSocketConnectionClosedException, WebSocketConnectionClosedException => true
  | SystemExit x, SystemExit y => String.eqb x y
  | _, _ => false
  end.

(** Levels of the [logging] module, with their numeric values. *)
Inductive level : Type := DEBUG | INFO | WARNING | ERROR | CRITICAL.

Definition level_num (l : level) : Z :=
  match l with
  | DEBUG => 10 | INFO => 20 | WARNING => 30 | ERROR => 40 | CRITICAL => 50
  end.

(** What the process does that an observer can see, in order. *)
Inductive event : Type :=
| EvApiCall (method : string)
| EvConnect (ok : bool)
| EvRead
| EvSend (channel text : string)
| EvSleep (seconds : Q)
| EvLog (lvl : level) (msg : pyval).

Record world : Type := mkWorld {
  connects : nat;                 (* calls of [rtm_connect] so far *)
  reads : nat;                    (* calls of [rtm_read] so far *)
  sends : nat;                    (* calls of [rtm_send_message] so far *)
  root_level : level;             (* level of the root logger *)
  logger_level : option level;    (* level of the module's logger, [None] = NOTSET *)
  trace : list event
}.

(** A fresh interpreter: nothing called, root logger at its default. *)
Definition initial_world : world :=
  mkWorld 0 0 0 WARNING None [].

Inductive result (A : Type) : Type :=
| Return (a : A)
| Raise (e : exn)
| OutOfFuel.
Arguments Return {A} a.
Arguments Raise {A} e.
Arguments OutOfFuel {A}.

Definition M (A : Type) : Type := world -> result A * world.

Definition ret {A} (a : A) : M A := fun w => (Return a, w).

Definition bind {A B} (c : M A) (k : A -> M B) : M B :=
  fun w =>
    match c w with
    | (Return a, w') => k a w'
    | (Raise e, w') => (Raise e, w')
    | (OutOfFuel, w') => (OutOfFuel, w')
    end.

Definition raise {A} (e : exn) : M A := fun w => (Raise e, w).

(** [try: c / except e: h]. *)
Definition try_except {A} (c : M A) (e : exn) (h : M A) : M A :=
  fun w =>
    match c w with
    | (Raise e', w') => if exn_eqb e' e then h w' else (Raise e', w')
    | r => r
    end.

Declare Scope monad_scope.
Delimit Scope monad_scope with monad.
Notation "x <- c ;; k" := (bind c (fun x => k))
  (at level 61, c at next level, right associativity) : monad_scope.
Notation "c ;; k" := (bind c (fun _ => k))
  (at level 61, right associativity) : monad_scope.
Local Open Scope monad_scope.

Definition emit (e : event) : M unit :=
  fun w => (Return tt,
            mkWorld (connects w) (reads w) (sends w) (root_level w)
                    (logger_level w) (trace w ++ [e])).

(** [for x in l: body(x)]. *)
Fixpoint for_each {A} (l : list A) (body : A -> M unit) : M unit :=
  match l with
  | [] => ret tt
  | x :: rest => body x ;; for_each rest body
  end.

(** [sys.exit(text)]. *)
Definition sys_exit {A} (text : string) : M A := raise (SystemExit text).

(** [time.sleep(seconds)]. *)
Definition sleep (seconds : Q) : M unit := emit (EvSleep seconds).

(* ===================================================================== *)
(** ** The collaborators: logging and the Slack client *)
(* ===================================================================== *)

(** *** [logging] *)

(** The module's logger starts at NOTSET and inherits the root's level
    until [setLevel] gives it one of its own. *)
Definition effective_level (w : world) : level :=
  match logger_level w with
  | Some l => l
  | None => root_level w
  end.

Definition isEnabledFor (lvl : level) (w : world) : bool :=
  level_num (effective_level w) <=? level_num lvl.

Definition logger_log (lvl : level) (msg : pyval) : M unit :=
  fun w => if isEnabledFor lvl w then emit (EvLog lvl msg) w else (Return tt, w).

Definition logger_debug : pyval -> M unit := logger_log DEBUG.
Definition logger_info : pyval -> M unit := logger_log INFO.
Definition logger_error : pyval -> M unit := logger_log ERROR.

Definition logger_setLevel (lvl : level) : M unit :=
  fun w => (Return tt,
            mkWorld (connects w) (reads w) (sends w) (root_level w)
                    (Some lvl) (trace w)).

(** [setup_logging(verbose)]: the root logger gets
    [logging.INFO if verbose < 1 else logging.DEBUG]. *)
Definition setup_logging (verbose : nat) : M unit :=
  fun w => (Return tt,
            mkWorld (connects w) (reads w) (sends w)
                    (if (verbose <? 1)%nat then INFO else DEBUG)
                    (logger_level w) (trace w)).

(** *** [click.style] and [bail] *)

Inductive color : Type :=
  black | red | green | yellow | blue | magenta | cyan | white.

Definition ansi_color (c : color) : Z :=
  match c with
  | black => 30 | red => 31 | green => 32 | yellow => 33
  | blue => 34 | magenta => 35 | cyan => 36 | white => 37
  end.

Definition esc : ascii := ascii_of_nat 27.

(** [click.style(text, fg=c)]. *)
Definition style (text : string) (fg : color) : string :=
  String esc ("[" ++ str_Z (ansi_color fg) ++ "m") ++ text ++ String esc "[0m".

Definition bail (msg_type : string) (c : color) (text : string) : string :=
  style msg_type c ++ ": " ++ text.

(** *** [SlackClient] *)

(** A channel or group as the listing calls describe it. *)
Record entry : Type := mkEntry { chan_id : string; chan_name : string }.

(** The answer of [api_call], reduced to its list-valued fields. *)
Definition response : Type := list (string * list entry).

(** [resp.get(k)]: [None] when the answer has no such field. *)
Fixpoint resp_get (r : response) (k : string) : option (list entry) :=
  match r with
  | [] => None
  | (k', v) :: rest => if String.eqb k' k then Some v else resp_get rest k
  end.

Inductive read_outcome : Type :=
| Events (batch : list message)
| ConnectionClosed.       (* raises WebSocketConnectionClosedException *)

Inductive send_outcome : Type :=
| Sent
| NoSendCapability.       (* raises AttributeError *)

(** What the remote service does: the [n]-th call of each kind. *)
Record SlackClient : Type := mkSlackClient {
  connect_outcome : nat -> bool;
  rtm_read_outcome : nat -> read_outcome;
  send_outcome_of : nat -> send_outcome;
  api_response : string -> response
}.

Definition rtm_connect (sc : SlackClient) : M bool :=
  fun w =>
    let ok := connect_outcome sc (connects w) in
    (Return ok,
     mkWorld (S (connects w)) (reads w) (sends w) (root_level w)
             (logger_level w) (trace w ++ [EvConnect ok])).

Definition rtm_read (sc : SlackClient) : M (list message) :=
  fun w =>
    let w' := mkWorld (connects w) (S (reads w)) (sends w) (root_level w)
                      (logger_level w) (trace w ++ [EvRead]) in
    match rtm_read_outcome sc (reads w) with
    | Events batch => (Return batch, w')
    | ConnectionClosed => (Raise WebSocketConnectionClosedException, w')
    end.

Definition rtm_send_message (sc : SlackClient) (channel text : string) : M unit :=
  fun w =>
    let w' := mkWorld (connects w) (reads w) (S (sends w)) (root_level w)
                      (logger_level w) (trace w ++ [EvSend channel text]) in
    match send_outcome_of sc (sends w) with
    | Sent => (Return tt, w')
    | NoSendCapability => (Raise AttributeError, w')
    end.

Definition api_call (sc : SlackClient) (method : string) : M response :=
  emit (EvApiCall method) ;; ret (api_response sc method).

(* ===================================================================== *)
(** ** The code shared by both entry points *)
(* ===================================================================== *)

(** [not l] for a listing that is [None] or a list. *)
Definition listing_falsy (l : option (list entry)) : bool :=
  match l with
  | None => true
  | Some [] => true
  | Some (_ :: _) => false
  end.

(** [a + b] for listings: defined for two lists only. *)
Definition listing_add (a b : option (list entry)) : M (list entry) :=
  match a, b with
  | Some x, Some y => ret (x ++ y)%list
  | _, _ => raise TypeError
  end.

Definition find_channel_id (channel : string) (sc : SlackClient) : M string :=
  r1 <- api_call sc "channels.list" ;;
  let channels_list := resp_get r1 "channels" in
  r2 <- api_call sc "groups.list" ;;
  let groups_list := resp_get r2 "groups" in
  if listing_falsy channels_list && listing_falsy groups_list
  then sys_exit (bail "fatal" red "Couldn't enumerate channels/groups")
  else
    both <- listing_add channels_list groups_list ;;
    let channel_ids :=
      map chan_id (filter (fun c => String.eqb (chan_name c) channel) both) in
    match channel_ids with
    | [] => sys_exit (bail "fatal" red ("Couldn't find #" ++ channel))
    | first :: _ => ret first
    end.

(** How the process ends: status 0 when [cli] returns, status 1 on
    [sys.exit(text)] and on an exception nobody handles. *)
Definition exit_status (r : result unit) : option Z :=
  match r with
  | Return _ => Some 0
  | Raise _ => Some 1
  | OutOfFuel => None
  end.

(* ===================================================================== *)
(** ** [wb2k/__main__.py] *)
(* ===================================================================== *)

Module Main.

(** [v.get(k)] on an arbitrary object: only a dict has [get]. *)
Definition py_get (v : pyval) (k : string) : M pyval :=
  match v with
  | PDict d => ret (dict_get d k)
  | _ => raise AttributeError
  end.

Definition welcome_text (user : pyval) : string :=
  "Sup, <@" ++ py_str user ++ "> :hand:" ++ char newline
  ++ "Make sure to add a party hat to your avatar!".

Definition is_join (subtype : pyval) : bool :=
  py_eq_str subtype "group_join" || py_eq_str subtype "channel_join".

Definition handle_message (message : message) (channel channel_id : string)
           (sc : SlackClient) : M unit :=
  logger_debug (PDict message) ;;
  let subtype := dict_get message "subtype" in
  let user := dict_get message "user" in
  if is_join subtype && truthy user then
    let message_channel_id := dict_get message "channel" in
    let user_profile := dict_get message "user_profile" in
    username <- py_get user_profile "name" ;;
    if py_eq_str message_channel_id channel_id then
      try_except
        (rtm_send_message sc channel (welcome_text user) ;;
         logger_info (PStr ("Welcomed " ++ py_str username ++ " to #" ++ channel)))
        AttributeError
        (logger_setLevel ERROR ;;
         logger_error (PStr ("Couldn't send message to #" ++ channel)))
    else ret tt
  else ret tt.

Definition backoff : Q := 1 # 2.

(** One pass of [while True]: the [try] block and its handler.  The value
    is [retry_count] as the pass leaves it. *)
Definition loop_pass (channel channel_id : string) (retries : Z)
           (sc : SlackClient) (retry_count : Z) : M Z :=
  try_except
    (batch <- rtm_read sc ;;
     for_each batch (fun message => handle_message message channel channel_id sc) ;;
     let retry_count := 0 in
     sleep (1 # 2) ;;
     ret retry_count)
    WebSocketConnectionClosedException
    (logger_error (PStr "Lost connection to Slack, reconnecting...") ;;
     ok <- rtm_connect sc ;;
     (if negb ok then
        logger_info (PStr "Failed to reconnect to Slack") ;;
        (if retry_count >=? retries
         then sys_exit (bail "fatal" red
                             "Too many failed reconnect attempts, shutting down")
         else ret tt) ;;
        sleep (Qred (backoff ^ 2 / 4))
      else
        logger_info (PStr "Reconnected to Slack")) ;;
     ret (retry_count + 1)).

(** [while True], unrolled at most [fuel] times. *)
Fixpoint read_loop (fuel : nat) (channel channel_id : string) (retries : Z)
         (sc : SlackClient) (retry_count : Z) : M unit :=
  match fuel with
  | O => fun w => (OutOfFuel, w)
  | S fuel' =>
      retry_count' <- loop_pass channel channel_id retries sc retry_count ;;
      read_loop fuel' channel channel_id retries sc retry_count'
  end.

Definition announce_text : string := "hello party people 🎉".

(** [WB2K_TOKEN] is the environment variable, [sc] what the service does
    for the client built from it. *)
Definition cli (WB2K_TOKEN : option string) (sc : SlackClient)
           (channel : string) (verbose : nat) (retries : Z) (announce : bool)
           (fuel : nat) : M unit :=
  if (11 <? verbose)%nat
  then sys_exit (bail "fatal" red "It doesn't go beyond 11")
  else
    setup_logging verbose ;;
    match WB2K_TOKEN with
    | None | Some EmptyString =>
        sys_exit (bail "fatal" red "WB2K_TOKEN envvar undefined")
    | Some _ =>
        ok <- rtm_connect sc ;;
        if ok then
          logger_info (PStr "Connected to Slack") ;;
          channel_id <- find_channel_id channel sc ;;
          logger_debug (PStr ("Found channel ID " ++ channel_id
                              ++ " for #" ++ channel)) ;;
          logger_info (PStr ("Listening for joins in #" ++ channel)) ;;
          let retry_count := 0 in
          (if announce then rtm_send_message sc channel announce_text
           else ret tt) ;;
          read_loop fuel channel channel_id retries sc retry_count
        else
          sys_exit (bail "fatal" red "Couldn't connect to Slack")
    end.

End Main.

(* ===================================================================== *)
(** ** [wb2k/sendMessage.py] *)
(* ===================================================================== *)

Module SendMessage.

Definition cli (WB2K_TOKEN : option string) (sc : SlackClient)
           (channel : string) (verbose : nat) (retries : Z)
           (message : option string) : M unit :=
  if (11 <? verbose)%nat
  then sys_exit (bail "fatal" red "It doesn't go beyond 11")
  else
    setup_logging verbose ;;
    match WB2K_TOKEN with
    | None | Some EmptyString =>
        sys_exit (bail "fatal" red "WB2K_TOKEN envvar undefined")
    | Some _ =>
        ok <- rtm_connect sc ;;
        if ok then
          logger_info (PStr "Connected to Slack") ;;
          channel_id <- find_channel_id channel sc ;;
          logger_debug (PStr ("Found channel ID " ++ channel_id
                              ++ " for #" ++ channel)) ;;
          match message with
          | None | Some EmptyString => ret tt
          | Some text => rtm_send_message sc channel text
          end
        else
          sys_exit (bail "fatal" red "Couldn't connect to Slack")
    end.

End SendMessage.

(* ===================================================================== *)
(** ** Vocabulary of the properties *)
(* ===================================================================== *)

(** *** Channel resolution *)

(** What the two listing calls give after [.get]. *)
Definition channels_listing (sc : SlackClient) : option (list entry) :=
  resp_get (api_response sc "channels.list") "channels".
Definition groups_listing (sc : SlackClient) : option (list entry) :=
  resp_get (api_response sc "groups.list") "groups".

(** The world once both listings were fetched. *)
Definition listed (w : world) : world :=
  mkWorld (connects w) (reads w) (sends w) (root_level w) (logger_level w)
          (trace w ++ [EvApiCall "channels.list"; EvApiCall "groups.list"]).

(** Entries of a listing named [channel], in order. *)
Definition matching (channel : string) (l : list entry) : list entry :=
  filter (fun c => String.eqb (chan_name c) channel) l.

(** *** Events and the handler *)

Definition is_dict (v : pyval) : bool :=
  match v with
  | PDict _ => true
  | _ => false
  end.

(** The three conditions on an event: a join subtype, a user, and the
    channel being the resolved one. *)
Definition join_in (channel_id : string) (message : message) : bool :=
  Main.is_join (dict_get message "subtype")
  && truthy (dict_get message "user")
  && py_eq_str (dict_get message "channel") channel_id.

Definition is_send (e : event) : bool :=
  match e with
  | EvSend _ _ => true
  | _ => false
  end.

Definition is_log (e : event) : bool :=
  match e with
  | EvLog _ _ => true
  | _ => false
  end.

(** The send calls of a trace. *)
Definition sent (t : list event) : list event := filter is_send t.

(** The world after [logger.debug(message)]. *)
Definition debugged (message : message) (w : world) : world :=
  snd (logger_debug (PDict message) w).

(** The [for] loop of a pass over the batch that was read. *)
Definition handle_batch (sc : SlackClient) (channel channel_id : string)
           (batch : list message) : M unit :=
  for_each batch (fun message => Main.handle_message message channel channel_id sc).

(** *** The supervisor *)

Definition too_many : string :=
  bail "fatal" red "Too many failed reconnect attempts, shutting down".

Definition beyond_11 : string := bail "fatal" red "It doesn't go beyond 11".

(** The world after a call of [rtm_read]. *)
Definition after_read (w : world) : world :=
  mkWorld (connects w) (S (reads w)) (sends w) (root_level w) (logger_level w)
          (trace w ++ [EvRead]).

(** Reconnect attempts made while the world went from [w] to [w']. *)
Definition reconnect_attempts (w w' : world) : nat := connects w' - connects w.

(** [n] passes of the loop in a row; the value is [retry_count] after the
    last one. *)
Fixpoint passes (sc : SlackClient) (channel channel_id : string) (retries : Z)
         (n : nat) (retry_count : Z) : M Z :=
  match n with
  | O => ret retry_count
  | S n' =>
      retry_count' <- Main.loop_pass channel channel_id retries sc retry_count ;;
      passes sc channel channel_id retries n' retry_count'
  end.

(** From [w] on every read signals the loss. *)
Definition lost_from (sc : SlackClient) (w : world) : Prop :=
  forall i, rtm_read_outcome sc (reads w + i) = ConnectionClosed.

(** From [w] on every connect fails. *)
Definition unreachable_from (sc : SlackClient) (w : world) : Prop :=
  forall i, connect_outcome sc (connects w + i) = false.

(** *** Control flow *)

(** What a run does apart from logging: the calls to the client and the
    clock, in order. *)
Definition control (t : list event) : list event :=
  filter (fun e => negb (is_log e)) t.

(** Two worlds that differ in logger configuration and log records only. *)
Definition same_control (w1 w2 : world) : Prop :=
  connects w1 = connects w2
  /\ reads w1 = reads w2
  /\ sends w1 = sends w2
  /\ control (trace w1) = control (trace w2).

(** A computation whose result and non-logging actions do not depend on
    the logger configuration. *)
Definition insensitive {A} (c : M A) : Prop :=
  forall w1 w2,
    same_control w1 w2 ->
    fst (c w1) = fst (c w2) /\ same_control (snd (c w1)) (snd (c w2)).

(* ===================================================================== *)
(** ** Fixtures: a workspace, some events, some services *)
(* ===================================================================== *)

Definition token : option string := Some "xoxb-1".

(** [#general] is the public channel C123; there are no private groups. *)
Definition general_listing (method : string) : response :=
  if String.eqb method "channels.list"
  then [("channels", [mkEntry "C123" "general"])]
  else if String.eqb method "groups.list" then [("groups", [])]
  else [].

Definition ada_joins : message :=
  [("type", PStr "message"); ("subtype", PStr "channel_join");
   ("channel", PStr "C123"); ("user", PStr "U1");
   ("user_profile", PDict [("name", PStr "Ada")])].

Definition ada_joins_elsewhere : message :=
  [("type", PStr "message"); ("subtype", PStr "channel_join");
   ("channel", PStr "C999"); ("user", PStr "U1");
   ("user_profile", PDict [("name", PStr "Ada")])].

(** A join event that carries no [user_profile]. *)
Definition join_without_profile : message :=
  [("type", PStr "message"); ("subtype", PStr "channel_join");
   ("channel", PStr "C123"); ("user", PStr "U1")].

(** A join event whose profile has no name. *)
Definition join_without_name : message :=
  [("type", PStr "message"); ("subtype", PStr "group_join");
   ("channel", PStr "C123"); ("user", PStr "U1");
   ("user_profile", PDict [("real_name", PStr "Ada L.")])].

(** The first connect succeeds; one batch is read; then the connection is
    lost and never comes back. *)
Definition sc_lost_for_good : SlackClient :=
  mkSlackClient (fun n => Nat.eqb n 0)
                (fun n => if Nat.eqb n 0 then Events [ada_joins] else ConnectionClosed)
                (fun _ => Sent)
                general_listing.

(** The connection is lost at once; the third reconnect attempt succeeds
    and the service is quiet from then on. *)
Definition sc_back_at_third : SlackClient :=
  mkSlackClient (fun n => Nat.eqb n 0 || Nat.leb 3 n)
                (fun n => if Nat.ltb n 3 then ConnectionClosed else Events [])
                (fun _ => Sent)
                general_listing.

(** A healthy connection on which every send call lacks the capability. *)
Definition sc_stale (batch : list message) : SlackClient :=
  mkSlackClient (fun _ => true)
                (fun n => if Nat.eqb n 0 then Events batch else Events [])
                (fun _ => NoSendCapability)
                general_listing.

(** A healthy connection delivering one batch, then nothing. *)
Definition sc_healthy (batch : list message) : SlackClient :=
  mkSlackClient (fun _ => true)
                (fun n => if Nat.eqb n 0 then Events batch else Events [])
                (fun _ => Sent)
                general_listing.

(** The world in which [cli] enters the read loop. *)
Definition loop_entry (sc : SlackClient) (verbose : nat) : world :=
  snd (Main.cli token sc "general" verbose 8 false 0 initial_world).

(** A workspace whose [channels.list] answer has no [channels] field (an
    error answer), and whose only private group is named general. *)
Definition sc_groups_only : SlackClient :=
  mkSlackClient (fun _ => true) (fun _ => Events []) (fun _ => Sent)
    (fun method =>
       if String.eqb method "groups.list"
       then [("groups", [mkEntry "G1" "general"])]
       else []).

(** The world of the fourth scenario after the two failed attempts. *)
Definition twice_failed : world :=
  snd (passes sc_back_at_third "general" "C123" 8 2 0 (loop_entry sc_back_at_third 0)).

(* ===================================================================== *)
(** ** Vocabulary of the further properties *)
(* ===================================================================== *)

(** *** The fatal messages *)

Definition enumeration_failed : string :=
  bail "fatal" red "Couldn't enumerate channels/groups".

Definition not_found (channel : string) : string :=
  bail "fatal" red ("Couldn't find #" ++ channel).

Definition token_undefined : string :=
  bail "fatal" red "WB2K_TOKEN envvar undefined".

Definition not_connected : string :=
  bail "fatal" red "Couldn't connect to Slack".

(** [not api_token]. *)
Definition token_missing (tok : option string) : bool :=
  match tok with
  | None | Some EmptyString => true
  | Some _ => false
  end.

(** [if message:] of the one-shot program. *)
Definition message_given (message : option string) : bool :=
  match message with
  | None | Some EmptyString => false
  | Some _ => true
  end.

(** *** Events of a trace *)

Definition is_api_call (e : event) : bool :=
  match e with
  | EvApiCall _ => true
  | _ => false
  end.

Definition is_read (e : event) : bool :=
  match e with
  | EvRead => true
  | _ => false
  end.

(** A log record of level [ERROR], or no log record at all. *)
Definition error_or_silent (e : event) : Prop :=
  match e with
  | EvLog lvl _ => lvl = ERROR
  | _ => True
  end.


(** The handler raises on this event: a join with a user whose
    [user_profile] is no dict. *)
Definition unhandled (message : message) : bool :=
  Main.is_join (dict_get message "subtype")
  && truthy (dict_get message "user")
  && negb (is_dict (dict_get message "user_profile")).

(** The send call that welcomes the user of an event. *)
Definition welcome (channel : string) (message : message) : event :=
  EvSend channel (Main.welcome_text (dict_get message "user")).

(** A workspace with a public channel and a private group both named
    general, the public one listed after another channel. *)
Definition sc_two_generals : SlackClient :=
  mkSlackClient (fun _ => true) (fun _ => Events []) (fun _ => Sent)
    (fun method =>
       if String.eqb method "channels.list"
       then [("channels", [mkEntry "C1" "random"; mkEntry "C123" "general"])]
       else if String.eqb method "groups.list"
            then [("groups", [mkEntry "G1" "general"])]
            else []).

(** A send call of the bot addressed to [channel], carrying the greeting
    or a welcome; or no send call at all. *)
Definition bot_send_to (channel : string) (e : event) : Prop :=
  match e with
  | EvSend c text =>
      c = channel
      /\ (text = Main.announce_text \/ exists user, text = Main.welcome_text user)
  | _ => True
  end.

(** A send call of the one-shot program addressed to [channel], carrying
    the message; or no send call at all. *)
Definition one_shot_send_to (channel : string) (message : option string)
           (e : event) : Prop :=
  match e with
  | EvSend c text => c = channel /\ message = Some text
  | _ => True
  end.

(** *** Computations *)

(** Started in a world that meets [I], the computation ends in one that
    meets [I], having added to the trace events that meet [P] only. *)
Definition appends (I : world -> Prop) (P : event -> Prop) {A} (c : M A) : Prop :=
  forall w,
    I w ->
    I (snd (c w))
    /\ exists d, trace (snd (c w)) = (trace w ++ d)%list /\ Forall P d.

(** [I] looks at the logger configuration only. *)
Definition on_levels (I : world -> Prop) : Prop :=
  forall w w',
    root_level w = root_level w' -> logger_level w = logger_level w' ->
    I w -> I w'.

(** The computation never returns a value. *)
Definition never_returns {A} (c : M A) : Prop :=
  forall w a, fst (c w) <> Return a.

(** The world in which [Main.cli], started in a fresh interpreter, enters
    the read loop. *)
Definition entry_world (channel channel_id : string) (verbose : nat)
           (announce : bool) : world :=
  mkWorld 1 0 (if announce then 1 else 0)
          (if (verbose <? 1)%nat then INFO else DEBUG) None
          ([EvConnect true; EvLog INFO (PStr "Connected to Slack");
            EvApiCall "channels.list"; EvApiCall "groups.list"]
           ++ (if (verbose <? 1)%nat then []
               else [EvLog DEBUG (PStr ("Found channel ID " ++ channel_id
                                        ++ " for #" ++ channel))])
           ++ [EvLog INFO (PStr ("Listening for joins in #" ++ channel))]
           ++ (if announce then [EvSend channel Main.announce_text] else []))%list.

(* ===================================================================== *)
(** ** Generic facts about the monad *)
(* ===================================================================== *)

#[local] Arguments String.append : simpl never.

Lemma app_one_one {A} (l : list A) (x y : A) :
  ((l ++ [x]) ++ [y] = l ++ [x; y])%list.
Proof. now rewrite <- app_assoc. Qed.

Lemma bind_Return {A B} (c : M A) (k : A -> M B) w a w' :
  c w = (Return a, w') -> bind c k w = k a w'.
Proof. unfold bind; intros ->; reflexivity. Qed.

Lemma bind_Raise {A B} (c : M A) (k : A -> M B) w e w' :
  c w = (Raise e, w') -> bind c k w = (Raise e, w').
Proof. unfold bind; intros ->; reflexivity. Qed.

Lemma bind_OutOfFuel {A B} (c : M A) (k : A -> M B) w w' :
  c w = (OutOfFuel, w') -> bind c k w = (OutOfFuel, w').
Proof. unfold bind; intros ->; reflexivity. Qed.

Lemma bind_assoc {A B C} (c : M A) (f : A -> M B) (g : B -> M C) w :
  bind (bind c f) g w = bind c (fun a => bind (f a) g) w.
Proof. unfold bind. destruct (c w) as [[a|e|] w']; reflexivity. Qed.

Lemma bind_ext {A B} (c : M A) (k1 k2 : A -> M B) w :
  (forall a w', k1 a w' = k2 a w') -> bind c k1 w = bind c k2 w.
Proof. intros H. unfold bind. destruct (c w) as [[a|e|] w']; auto. Qed.

(* ===================================================================== *)
(** ** Channel resolution *)
(* ===================================================================== *)

Ltac open_resolver :=
  unfold find_channel_id, api_call, listing_add, sys_exit;
  unfold bind, emit, ret, raise.

Section Resolver.

Variable sc : SlackClient.
Variable channel : string.

Lemma find_channel_id_world w :
  snd (find_channel_id channel sc w) = listed w.
Proof.
  open_resolver; unfold listed; simpl.
  rewrite app_one_one.
  fold (channels_listing sc) (groups_listing sc).
  destruct (channels_listing sc) as [[|c cl]|], (groups_listing sc) as [[|g gl]|];
    simpl;
    try reflexivity;
    match goal with |- context [match ?l with [] => _ | _ :: _ => _ end] =>
      destruct l end; reflexivity.
Qed.

Lemma find_channel_id_any_world w w' :
  fst (find_channel_id channel sc w) = fst (find_channel_id channel sc w').
Proof.
  open_resolver; simpl.
  fold (channels_listing sc) (groups_listing sc).
  destruct (channels_listing sc) as [[|c cl]|], (groups_listing sc) as [[|g gl]|];
    simpl;
    try reflexivity;
    match goal with |- context [match ?l with [] => _ | _ :: _ => _ end] =>
      destruct l end; reflexivity.
Qed.

(** Nothing listed at all: the enumeration error. *)
Lemma find_channel_id_enumeration w :
  listing_falsy (channels_listing sc) = true ->
  listing_falsy (groups_listing sc) = true ->
  fst (find_channel_id channel sc w)
  = Raise (SystemExit (bail "fatal" red "Couldn't enumerate channels/groups")).
Proof.
  intros H1 H2.
  open_resolver; simpl.
  fold (channels_listing sc) (groups_listing sc).
  now rewrite H1, H2.
Qed.

(** Both listings there and one of them not empty: the first match of
    their concatenation, or the not-found error. *)
Lemma find_channel_id_lookup w cl gl :
  (channels_listing sc) = Some cl ->
  (groups_listing sc) = Some gl ->
  (cl ++ gl)%list <> [] ->
  fst (find_channel_id channel sc w)
  = match matching channel (cl ++ gl) with
    | [] => Raise (SystemExit (bail "fatal" red ("Couldn't find #" ++ channel)))
    | c :: _ => Return (chan_id c)
    end.
Proof.
  intros H1 H2 Hne.
  open_resolver; simpl.
  fold (channels_listing sc) (groups_listing sc).
  rewrite H1, H2.
  assert (Hf : listing_falsy (Some cl) && listing_falsy (Some gl) = false).
  { destruct cl, gl; simpl; try reflexivity. now elim Hne. }
  rewrite Hf. unfold matching. cbv beta iota.
  destruct (filter _ (cl ++ gl)%list); reflexivity.
Qed.

(** The first match is the first entry with that name: everything before
    it is named otherwise. *)
Lemma matching_first l c rest :
  matching channel l = c :: rest ->
  exists before after,
    l = (before ++ c :: after)%list
    /\ chan_name c = channel
    /\ forall b, In b before -> chan_name b <> channel.
Proof.
  induction l as [|x l IH]; simpl; [discriminate|].
  destruct (String.eqb (chan_name x) channel) eqn:E.
  - intros [= -> _]. exists [], l. apply String.eqb_eq in E.
    split; [reflexivity|]. split; [assumption|]. intros b [].
  - intros H. destruct (IH H) as (before & after & -> & Hn & Hb).
    exists (x :: before), after.
    split; [reflexivity|]. split; [assumption|].
    intros b [<-|Hin]; [now apply String.eqb_neq|auto].
Qed.

Lemma matching_nil l :
  matching channel l = [] <-> forall c, In c l -> chan_name c <> channel.
Proof.
  unfold matching. split.
  - intros H c Hin Hc.
    assert (Hf : In c (filter (fun c => String.eqb (chan_name c) channel) l)).
    { apply filter_In. split; [assumption|now apply String.eqb_eq]. }
    rewrite H in Hf. destruct Hf.
  - intros H. induction l as [|x l IH]; simpl; [reflexivity|].
    destruct (String.eqb (chan_name x) channel) eqn:E.
    + apply String.eqb_eq in E. exfalso. apply (H x); simpl; auto.
    + apply IH. intros c Hin. apply H. now right.
Qed.

(** One listing unavailable, the other not empty: [None + list]. *)
Lemma find_channel_id_mixed w :
  ((channels_listing sc) = None /\ listing_falsy (groups_listing sc) = false)
  \/ (listing_falsy (channels_listing sc) = false /\ (groups_listing sc) = None) ->
  find_channel_id channel sc w = (Raise TypeError, listed w).
Proof.
  intros H. rewrite (surjective_pairing (find_channel_id channel sc w)).
  rewrite find_channel_id_world. f_equal.
  open_resolver; simpl.
  fold (channels_listing sc) (groups_listing sc).
  destruct H as [[-> H]|[H ->]].
  - destruct (groups_listing sc) as [[|g gl]|]; try discriminate. reflexivity.
  - destruct (channels_listing sc) as [[|c cl]|]; try discriminate. reflexivity.
Qed.

End Resolver.

(* ===================================================================== *)
(** ** The event filter and the welcome dispatcher *)
(* ===================================================================== *)

Ltac destruct_scrutinee :=
  match goal with
  | |- context [if ?b then _ else _] =>
      lazymatch b with
      | context [match _ with _ => _ end] => fail
      | _ => destruct b eqn:?
      end
  | |- context [match ?x with _ => _ end] =>
      lazymatch x with
      | context [match _ with _ => _ end] => fail
      | _ => destruct x eqn:?
      end
  end.

Ltac open_handler :=
  unfold Main.handle_message, Main.py_get, logger_debug, logger_info, logger_error,
    logger_setLevel, rtm_send_message, try_except;
  unfold logger_log, bind, emit, ret, raise.

Section Handler.

Variable sc : SlackClient.
Variables channel channel_id : string.

Lemma handle_message_connects message w :
  connects (snd (Main.handle_message message channel channel_id sc w)) = connects w.
Proof.
  open_handler. repeat (destruct_scrutinee; cbn); reflexivity.
Qed.

Lemma handle_message_reads message w :
  reads (snd (Main.handle_message message channel channel_id sc w)) = reads w.
Proof.
  open_handler. repeat (destruct_scrutinee; cbn); reflexivity.
Qed.

(** A send call is made exactly for the events that meet the three
    conditions and carry a profile object. *)
Lemma handle_message_sends message w :
  sends (snd (Main.handle_message message channel channel_id sc w))
  = if join_in channel_id message && is_dict (dict_get message "user_profile")
    then S (sends w) else sends w.
Proof.
  unfold join_in. open_handler.
  destruct (Main.is_join _), (truthy _), (dict_get message "user_profile"),
    (py_eq_str _ channel_id); cbn;
    repeat (destruct_scrutinee; cbn); reflexivity.
Qed.

(** The only way for the handler to fail: a join with a user whose
    [user_profile] has no [get]. *)
Lemma handle_message_result message w :
  fst (Main.handle_message message channel channel_id sc w)
  = if Main.is_join (dict_get message "subtype")
       && truthy (dict_get message "user")
       && negb (is_dict (dict_get message "user_profile"))
    then Raise AttributeError else Return tt.
Proof.
  open_handler.
  destruct (Main.is_join _), (truthy _), (dict_get message "user_profile"); cbn;
    repeat (destruct_scrutinee; cbn); reflexivity.
Qed.

(** What is added to the trace holds one send call or none. *)
Lemma handle_message_sent message w :
  sent (trace (snd (Main.handle_message message channel channel_id sc w)))
  = (sent (trace w)
     ++ if join_in channel_id message && is_dict (dict_get message "user_profile")
        then [EvSend channel (Main.welcome_text (dict_get message "user"))]
        else [])%list.
Proof.
  unfold join_in, sent. open_handler.
  destruct (Main.is_join _), (truthy _), (dict_get message "user_profile"),
    (py_eq_str _ channel_id); cbn;
    repeat (destruct_scrutinee; cbn);
    repeat (rewrite filter_app; cbn);
    rewrite ?app_nil_r, <- ?app_assoc; reflexivity.
Qed.

(** The stale session: the send call raises, the handler catches. *)
Lemma handle_message_stale message w :
  join_in channel_id message = true ->
  is_dict (dict_get message "user_profile") = true ->
  send_outcome_of sc (sends w) = NoSendCapability ->
  Main.handle_message message channel channel_id sc w
  = (Return tt,
     mkWorld (connects w) (reads w) (S (sends w)) (root_level w) (Some ERROR)
             (trace (debugged message w)
              ++ [EvSend channel (Main.welcome_text (dict_get message "user"));
                  EvLog ERROR (PStr ("Couldn't send message to #" ++ channel))])).
Proof.
  unfold join_in, debugged. intros Hj Hd Hs.
  apply andb_prop in Hj as [Hj Hc]. apply andb_prop in Hj as [Hj Hu].
  open_handler. rewrite Hj, Hu, Hc. cbn.
  destruct (dict_get message "user_profile"); try discriminate.
  unfold isEnabledFor, effective_level.
  destruct (level_num _ <=? level_num DEBUG); cbn; rewrite Hs; cbn;
    now rewrite app_one_one.
Qed.

(** The healthy session: one send call, then the info record if the
    logger lets it through. *)
Lemma handle_message_welcomed message w :
  join_in channel_id message = true ->
  is_dict (dict_get message "user_profile") = true ->
  send_outcome_of sc (sends w) = Sent ->
  exists t,
    Main.handle_message message channel channel_id sc w
    = (Return tt,
       mkWorld (connects w) (reads w) (S (sends w)) (root_level w) (logger_level w)
               (trace (debugged message w)
                ++ EvSend channel (Main.welcome_text (dict_get message "user")) :: t))
    /\ forallb is_log t = true.
Proof.
  unfold join_in, debugged. intros Hj Hd Hs.
  apply andb_prop in Hj as [Hj Hc]. apply andb_prop in Hj as [Hj Hu].
  open_handler. rewrite Hj, Hu, Hc. cbn.
  destruct (dict_get message "user_profile"); try discriminate.
  unfold isEnabledFor, effective_level.
  destruct (level_num _ <=? level_num DEBUG); cbn; rewrite Hs; cbn;
    repeat (destruct_scrutinee; cbn);
    eexists; (split; [rewrite <- ?app_assoc; reflexivity|reflexivity]).
Qed.

(** *** A whole batch *)

Lemma handle_batch_connects batch w :
  connects (snd (handle_batch sc channel channel_id batch w)) = connects w.
Proof.
  revert w. induction batch as [|m batch IH]; intros w; [reflexivity|].
  unfold handle_batch; simpl. unfold bind.
  pose proof (handle_message_connects m w) as Hc.
  destruct (Main.handle_message m channel channel_id sc w) as [[[]|e|] w1];
    simpl in *; try assumption.
  fold (handle_batch sc channel channel_id batch). now rewrite IH.
Qed.

Lemma handle_batch_reads batch w :
  reads (snd (handle_batch sc channel channel_id batch w)) = reads w.
Proof.
  revert w. induction batch as [|m batch IH]; intros w; [reflexivity|].
  unfold handle_batch; simpl. unfold bind.
  pose proof (handle_message_reads m w) as Hc.
  destruct (Main.handle_message m channel channel_id sc w) as [[[]|e|] w1];
    simpl in *; try assumption.
  fold (handle_batch sc channel channel_id batch). now rewrite IH.
Qed.

Lemma handle_batch_result batch w :
  fst (handle_batch sc channel channel_id batch w) = Return tt
  \/ fst (handle_batch sc channel channel_id batch w) = Raise AttributeError.
Proof.
  revert w. induction batch as [|m batch IH]; intros w; [now left|].
  unfold handle_batch; simpl. unfold bind.
  pose proof (handle_message_result m w) as Hr.
  destruct (Main.handle_message m channel channel_id sc w) as [[[]|e|] w1]; simpl in *.
  - apply IH.
  - right. destruct (_ && _); congruence.
  - destruct (_ && _); discriminate.
Qed.

End Handler.

(* ===================================================================== *)
(** ** The connection supervisor *)
(* ===================================================================== *)

Section Supervisor.

Variable sc : SlackClient.
Variables channel channel_id : string.
Variable retries : Z.

Lemma read_loop_passes n fuel retry_count w :
  Main.read_loop (n + fuel) channel channel_id retries sc retry_count w
  = (retry_count' <- passes sc channel channel_id retries n retry_count ;;
     Main.read_loop fuel channel channel_id retries sc retry_count') w.
Proof.
  revert retry_count w. induction n as [|n IH]; intros r w; simpl.
  - unfold bind, ret. reflexivity.
  - rewrite bind_assoc.
    apply bind_ext. intros r' w1. apply IH.
Qed.

(** *** A pass whose read returns a batch *)

Lemma pass_healthy retry_count w batch :
  rtm_read_outcome sc (reads w) = Events batch ->
  Main.loop_pass channel channel_id retries sc retry_count w
  = match handle_batch sc channel channel_id batch (after_read w) with
    | (Return _, w2) =>
        (Return 0,
         mkWorld (connects w2) (reads w2) (sends w2) (root_level w2)
                 (logger_level w2) (trace w2 ++ [EvSleep (1 # 2)]))
    | (Raise e, w2) => (Raise e, w2)
    | (OutOfFuel, w2) => (OutOfFuel, w2)
    end.
Proof.
  intros Hr.
  pose proof (handle_batch_result sc channel channel_id batch (after_read w)) as Hb.
  unfold Main.loop_pass, try_except, bind at 1, rtm_read. rewrite Hr.
  fold (after_read w). unfold bind at 1.
  change (for_each batch _) with (handle_batch sc channel channel_id batch).
  destruct (handle_batch sc channel channel_id batch (after_read w))
    as [[[]|e|] w2]; simpl in *.
  - reflexivity.
  - destruct Hb as [Hb|Hb]; [discriminate|]. injection Hb as ->. reflexivity.
  - reflexivity.
Qed.

Lemma pass_healthy_result retry_count w batch :
  rtm_read_outcome sc (reads w) = Events batch ->
  fst (Main.loop_pass channel channel_id retries sc retry_count w) = Return 0
  \/ fst (Main.loop_pass channel channel_id retries sc retry_count w)
     = Raise AttributeError.
Proof.
  intros Hr. rewrite (pass_healthy retry_count w batch Hr).
  pose proof (handle_batch_result sc channel channel_id batch (after_read w)) as Hb.
  destruct (handle_batch sc channel channel_id batch (after_read w))
    as [[[]|e|] w2]; simpl in *; intuition congruence.
Qed.

Lemma pass_healthy_counters retry_count w batch :
  rtm_read_outcome sc (reads w) = Events batch ->
  connects (snd (Main.loop_pass channel channel_id retries sc retry_count w))
  = connects w
  /\ reads (snd (Main.loop_pass channel channel_id retries sc retry_count w))
     = S (reads w).
Proof.
  intros Hr. rewrite (pass_healthy retry_count w batch Hr).
  pose proof (handle_batch_connects sc channel channel_id batch (after_read w)) as Hc.
  pose proof (handle_batch_reads sc channel channel_id batch (after_read w)) as Hd.
  destruct (handle_batch sc channel channel_id batch (after_read w))
    as [[[]|e|] w2]; simpl in *; auto.
Qed.

(** *** A pass whose read signals the loss *)

Lemma pass_lost_failed retry_count w :
  rtm_read_outcome sc (reads w) = ConnectionClosed ->
  connect_outcome sc (connects w) = false ->
  fst (Main.loop_pass channel channel_id retries sc retry_count w)
  = (if retry_count >=? retries
     then Raise (SystemExit too_many) else Return (retry_count + 1))
  /\ connects (snd (Main.loop_pass channel channel_id retries sc retry_count w))
     = S (connects w)
  /\ reads (snd (Main.loop_pass channel channel_id retries sc retry_count w))
     = S (reads w).
Proof.
  intros Hr Hc.
  unfold Main.loop_pass, try_except, bind at 1, rtm_read. rewrite Hr.
  cbn [exn_eqb].
  unfold logger_error, logger_info, logger_log, rtm_connect, sleep, sys_exit,
    bind, emit, ret, raise.
  fold too_many.
  repeat (destruct_scrutinee; cbn [fst snd connects reads negb]);
    cbn in *; try rewrite Hc in *; try discriminate; auto.
Qed.

Lemma pass_lost_reconnected retry_count w :
  rtm_read_outcome sc (reads w) = ConnectionClosed ->
  connect_outcome sc (connects w) = true ->
  fst (Main.loop_pass channel channel_id retries sc retry_count w)
  = Return (retry_count + 1)
  /\ connects (snd (Main.loop_pass channel channel_id retries sc retry_count w))
     = S (connects w)
  /\ reads (snd (Main.loop_pass channel channel_id retries sc retry_count w))
     = S (reads w).
Proof.
  intros Hr Hc.
  unfold Main.loop_pass, try_except, bind at 1, rtm_read. rewrite Hr.
  cbn [exn_eqb].
  unfold logger_error, logger_info, logger_log, rtm_connect, sleep, sys_exit,
    bind, emit, ret, raise.
  repeat (destruct_scrutinee; cbn [fst snd connects reads negb]);
    cbn in *; try rewrite Hc in *; try discriminate; auto.
Qed.

End Supervisor.

(** *** The retry ceiling *)

Section RetryCeiling.

Variable sc : SlackClient.
Variables channel channel_id : string.
Variable retries : Z.

Lemma lost_from_step w w' :
  reads w' = S (reads w) -> lost_from sc w -> lost_from sc w'.
Proof.
  intros Hr H i. rewrite Hr.
  replace (S (reads w) + i)%nat with (reads w + S i)%nat by lia.
  apply H.
Qed.

Lemma unreachable_from_step w w' :
  connects w' = S (connects w) -> unreachable_from sc w -> unreachable_from sc w'.
Proof.
  intros Hr H i. rewrite Hr.
  replace (S (connects w) + i)%nat with (connects w + S i)%nat by lia.
  apply H.
Qed.

Lemma unreachable_from_same w w' :
  connects w' = connects w -> unreachable_from sc w -> unreachable_from sc w'.
Proof. intros Hr H i. rewrite Hr. apply H. Qed.

Lemma lost_head w :
  lost_from sc w -> rtm_read_outcome sc (reads w) = ConnectionClosed.
Proof. intros H. specialize (H O). now rewrite Nat.add_0_r in H. Qed.

Lemma unreachable_head w :
  unreachable_from sc w -> connect_outcome sc (connects w) = false.
Proof. intros H. specialize (H O). now rewrite Nat.add_0_r in H. Qed.

(** Once the connection is lost for good, each pass is one failed
    attempt, and the attempts never exceed what is left of the budget. *)
Lemma lost_attempts_bound fuel :
  forall retry_count w,
    lost_from sc w -> unreachable_from sc w ->
    (connects (snd (Main.read_loop fuel channel channel_id retries sc retry_count w))
     <= connects w + Z.to_nat (retries - retry_count) + 1)%nat.
Proof.
  induction fuel as [|fuel IH]; intros r w Hl Hu; simpl; [lia|].
  destruct (pass_lost_failed sc channel channel_id retries r w
              (lost_head w Hl) (unreachable_head w Hu)) as (Hres & Hc & Hr).
  unfold bind.
  destruct (Main.loop_pass channel channel_id retries sc r w) as [res w1]; simpl in *.
  destruct (r >=? retries) eqn:E; subst res.
  - simpl. lia.
  - specialize (IH (r + 1) w1 (lost_from_step w w1 Hr Hl)
                 (unreachable_from_step w w1 Hc Hu)).
    rewrite Z.geb_leb in E. apply Z.leb_gt in E. lia.
Qed.

(** With fuel for it, the loop ends in the fatal exit after exactly the
    attempts the budget allows, in a world that more fuel does not change. *)
Lemma lost_exits n :
  forall retry_count w,
    n = Z.to_nat (retries - retry_count) ->
    lost_from sc w -> unreachable_from sc w ->
    exists w',
      connects w' = (connects w + n + 1)%nat
      /\ forall fuel, (n < fuel)%nat ->
           Main.read_loop fuel channel channel_id retries sc retry_count w
           = (Raise (SystemExit too_many), w').
Proof.
  induction n as [|n IH]; intros r w Hn Hl Hu;
    destruct (pass_lost_failed sc channel channel_id retries r w
                (lost_head w Hl) (unreachable_head w Hu)) as (Hres & Hc & Hr);
    destruct (Main.loop_pass channel channel_id retries sc r w) as [res w1] eqn:Hp;
    simpl in *.
  - assert (E : (r >=? retries) = true) by (apply Z.geb_le; lia).
    rewrite E in Hres. subst res.
    exists w1. split; [lia|]. intros [|fuel] Hf; [lia|]. simpl.
    now rewrite (bind_Raise _ _ _ _ _ Hp).
  - assert (E : (r >=? retries) = false).
    { destruct (r >=? retries) eqn:E; [|reflexivity]. apply Z.geb_le in E. lia. }
    rewrite E in Hres. subst res.
    destruct (IH (r + 1) w1) as (w' & Hw' & Hrun);
      [lia|exact (lost_from_step w w1 Hr Hl)|exact (unreachable_from_step w w1 Hc Hu)|].
    exists w'. split; [lia|]. intros [|fuel] Hf; [lia|]. simpl.
    rewrite (bind_Return _ _ _ _ _ Hp).
    apply Hrun. lia.
Qed.

End RetryCeiling.

(* ===================================================================== *)
(** ** The claims about the supervisor *)
(* ===================================================================== *)

(** C1 (as amended).  Take any run of the read loop in which the connection
    is lost once: the first [k] reads return batches, every later read
    signals connection-closed, and every reconnect attempt fails.  Then,
    whatever the fuel, the supervisor makes at most [max retries 0 + 1]
    reconnect attempts; and with fuel for [k + max retries 0 + 1] passes the
    run ends, in a world that no further fuel changes (nothing is attempted
    after the exit): either in the fatal exit after exactly
    [max retries 0 + 1] attempts, or, when an event of one of the first [k]
    batches made the handler raise, in that exception before any attempt.
    For [retries >= 0] the bound is [retries + 1]. *)
Theorem retry_ceiling :
  forall (sc : SlackClient) (channel channel_id : string) (retries : Z)
         (k : nat) (w : world),
    (forall i, (i < k)%nat ->
               rtm_read_outcome sc (reads w + i) <> ConnectionClosed) ->
    (forall i, (k <= i)%nat ->
               rtm_read_outcome sc (reads w + i) = ConnectionClosed) ->
    (forall i, connect_outcome sc (connects w + i) = false) ->
    (forall fuel,
        Z.of_nat (reconnect_attempts w
          (snd (Main.read_loop fuel channel channel_id retries sc 0 w)))
        <= Z.max retries 0 + 1)
    /\ exists e w',
         (forall fuel, (k + Z.to_nat retries < fuel)%nat ->
            Main.read_loop fuel channel channel_id retries sc 0 w = (Raise e, w'))
         /\ ((e = SystemExit too_many
              /\ Z.of_nat (reconnect_attempts w w') = Z.max retries 0 + 1)
             \/ (e = AttributeError /\ reconnect_attempts w w' = 0%nat)).
Proof.
  intros sc channel channel_id retries k.
  unfold reconnect_attempts.
  induction k as [|k IH]; intros w Hpre Hpost Hconn.
  - assert (Hl : lost_from sc w) by (intros i; apply Hpost; lia).
    split.
    + intros fuel.
      pose proof (lost_attempts_bound sc channel channel_id retries fuel 0 w Hl Hconn).
      lia.
    + destruct (lost_exits sc channel channel_id retries
                  (Z.to_nat (retries - 0)) 0 w eq_refl Hl Hconn) as (w' & Hw' & Hrun).
      exists (SystemExit too_many), w'. split.
      * intros fuel Hf. apply Hrun. rewrite Z.sub_0_r. lia.
      * left. split; [reflexivity|]. lia.
  - assert (H0 : rtm_read_outcome sc (reads w) <> ConnectionClosed).
    { specialize (Hpre O). rewrite Nat.add_0_r in Hpre. apply Hpre. lia. }
    destruct (rtm_read_outcome sc (reads w)) as [batch|] eqn:Hread;
      [clear H0|now elim H0].
    destruct (pass_healthy_counters sc channel channel_id retries 0 w batch Hread)
      as [Hc Hr].
    pose proof (pass_healthy_result sc channel channel_id retries 0 w batch Hread)
      as Hres.
    destruct (Main.loop_pass channel channel_id retries sc 0 w) as [res w1] eqn:Hp.
    simpl in *.
    destruct Hres as [-> | ->].
    + destruct (IH w1) as (Hbound & e & w' & Hrun & Hend).
      * intros i Hi. rewrite Hr.
        replace (S (reads w) + i)%nat with (reads w + S i)%nat by lia.
        apply Hpre. lia.
      * intros i Hi. rewrite Hr.
        replace (S (reads w) + i)%nat with (reads w + S i)%nat by lia.
        apply Hpost. lia.
      * intros i. rewrite Hc. apply Hconn.
      * split.
        -- intros [|fuel]; simpl; [lia|].
           rewrite (bind_Return _ _ _ _ _ Hp). rewrite <- Hc. apply Hbound.
        -- exists e, w'. split.
           ++ intros [|fuel] Hf; [lia|]. simpl.
              rewrite (bind_Return _ _ _ _ _ Hp). apply Hrun. lia.
           ++ rewrite <- Hc. exact Hend.
    + split.
      * intros [|fuel]; simpl; [lia|].
        rewrite (bind_Raise _ _ _ _ _ Hp). simpl. lia.
      * exists AttributeError, w1. split.
        -- intros [|fuel] Hf; [lia|]. simpl.
           now rewrite (bind_Raise _ _ _ _ _ Hp).
        -- right. split; [reflexivity|lia].
Qed.

(** C2.  Whatever [retry_count] was, a pass of the read loop whose read
    returns a batch (no connection-closed signal) and that completes leaves
    [retry_count] at 0.  The pass does complete whenever no event of the
    batch makes the handler raise, and so always for the empty batch. *)
Theorem retry_count_reset :
  forall (sc : SlackClient) (channel channel_id : string) (retries : Z)
         (retry_count : Z) (w : world) (batch : list message),
    rtm_read_outcome sc (reads w) = Events batch ->
    (forall r' w',
        Main.loop_pass channel channel_id retries sc retry_count w = (Return r', w') ->
        r' = 0)
    /\ (fst (for_each batch
               (fun message => Main.handle_message message channel channel_id sc)
               (after_read w)) = Return tt ->
        fst (Main.loop_pass channel channel_id retries sc retry_count w) = Return 0)
    /\ (batch = [] ->
        fst (Main.loop_pass channel channel_id retries sc retry_count w) = Return 0).
Proof.
  intros sc channel channel_id retries r w batch Hread.
  pose proof (pass_healthy sc channel channel_id retries r w batch Hread) as Hp.
  unfold handle_batch in Hp.
  split; [|split].
  - intros r' w' Hrun. rewrite Hrun in Hp.
    destruct (for_each batch _ (after_read w)) as [[[]|e|] w2];
      congruence.
  - intros Hok. rewrite Hp.
    destruct (for_each batch _ (after_read w)) as [[[]|e|] w2];
      simpl in *; congruence.
  - intros ->. rewrite Hp. reflexivity.
Qed.

(** C3 (as amended).  A successful reconnect attempt does not reset
    [retry_count]: it adds one to it, as a failed attempt below the ceiling
    does.  So with a ceiling above 1, after two failed attempts followed by
    a successful one [retry_count] is 3, and the next pass whose read
    returns a batch and that completes puts it back to 0. *)
Theorem reconnect_counts_as_retry :
  forall (sc : SlackClient) (channel channel_id : string) (retries : Z),
    (forall retry_count w,
        rtm_read_outcome sc (reads w) = ConnectionClosed ->
        connect_outcome sc (connects w) = true ->
        fst (Main.loop_pass channel channel_id retries sc retry_count w)
        = Return (retry_count + 1))
    /\ (forall w,
           1 < retries ->
           rtm_read_outcome sc (reads w) = ConnectionClosed ->
           rtm_read_outcome sc (reads w + 1) = ConnectionClosed ->
           rtm_read_outcome sc (reads w + 2) = ConnectionClosed ->
           connect_outcome sc (connects w) = false ->
           connect_outcome sc (connects w + 1) = false ->
           connect_outcome sc (connects w + 2) = true ->
           exists w3,
             passes sc channel channel_id retries 3 0 w = (Return 3, w3)
             /\ forall batch r' w4,
                  rtm_read_outcome sc (reads w3) = Events batch ->
                  Main.loop_pass channel channel_id retries sc 3 w3 = (Return r', w4) ->
                  r' = 0).
Proof.
  intros sc channel channel_id retries. split.
  - intros r w Hr Hc.
    apply (pass_lost_reconnected sc channel channel_id retries r w Hr Hc).
  - intros w Hret Hr0 Hr1 Hr2 Hc0 Hc1 Hc2.
    destruct (pass_lost_failed sc channel channel_id retries 0 w Hr0 Hc0)
      as (Hres0 & Hcon0 & Hrd0).
    destruct (Main.loop_pass channel channel_id retries sc 0 w) as [res0 w1] eqn:Hp0.
    simpl in *.
    replace (0 >=? retries) with false in Hres0
      by (symmetry; rewrite Z.geb_leb; apply Z.leb_gt; lia).
    subst res0.
    replace (reads w + 1)%nat with (reads w1) in Hr1 by lia.
    replace (connects w + 1)%nat with (connects w1) in Hc1 by lia.
    destruct (pass_lost_failed sc channel channel_id retries 1 w1 Hr1 Hc1)
      as (Hres1 & Hcon1 & Hrd1).
    destruct (Main.loop_pass channel channel_id retries sc 1 w1) as [res1 w2] eqn:Hp1.
    simpl in *.
    replace (1 >=? retries) with false in Hres1
      by (symmetry; rewrite Z.geb_leb; apply Z.leb_gt; lia).
    subst res1.
    replace (reads w + 2)%nat with (reads w2) in Hr2 by lia.
    replace (connects w + 2)%nat with (connects w2) in Hc2 by lia.
    destruct (pass_lost_reconnected sc channel channel_id retries 2 w2 Hr2 Hc2)
      as (Hres2 & _ & _).
    destruct (Main.loop_pass channel channel_id retries sc 2 w2) as [res2 w3] eqn:Hp2.
    simpl in *. subst res2.
    exists w3. split.
    + simpl. rewrite (bind_Return _ _ _ _ _ Hp0).
      rewrite (bind_Return _ _ _ _ _ Hp1).
      rewrite (bind_Return _ _ _ _ _ Hp2). reflexivity.
    + intros batch r' w4 Hread Hrun.
      pose proof (pass_healthy_result sc channel channel_id retries 3 w3 batch Hread)
        as Hres.
      rewrite Hrun in Hres. simpl in Hres.
      destruct Hres as [Hres|Hres]; congruence.
Qed.

(** C7.  A join event for the target channel whose welcome send raises the
    missing-attribute error: the handler catches it and returns normally,
    having recorded the send call and then the record at error level; the
    remaining events of the batch are handled from there on; and a pass
    made of that event completes, so that the loop goes on. *)
Theorem stale_send_is_survived :
  forall (sc : SlackClient) (channel channel_id : string) (message : message)
         (w : world),
    join_in channel_id message = true ->
    is_dict (dict_get message "user_profile") = true ->
    send_outcome_of sc (sends w) = NoSendCapability ->
    exists w',
      Main.handle_message message channel channel_id sc w = (Return tt, w')
      /\ trace w'
         = (trace (debugged message w)
            ++ [EvSend channel (Main.welcome_text (dict_get message "user"));
                EvLog ERROR (PStr ("Couldn't send message to #" ++ channel))])%list
      /\ (forall rest,
             for_each (message :: rest)
               (fun m => Main.handle_message m channel channel_id sc) w
             = for_each rest
                 (fun m => Main.handle_message m channel channel_id sc) w')
      /\ (forall retries retry_count w0,
             w = after_read w0 ->
             rtm_read_outcome sc (reads w0) = Events [message] ->
             fst (Main.loop_pass channel channel_id retries sc retry_count w0)
             = Return 0).
Proof.
  intros sc channel channel_id message w Hj Hd Hs.
  pose proof (handle_message_stale sc channel channel_id message w Hj Hd Hs) as Hh.
  eexists. split; [exact Hh|]. split; [reflexivity|]. split.
  - intros rest. simpl. now rewrite (bind_Return _ _ _ _ _ Hh).
  - intros retries r w0 -> Hread.
    pose proof (pass_healthy sc channel channel_id retries r w0 [message] Hread) as Hp.
    rewrite Hp.
    unfold handle_batch; simpl.
    rewrite (bind_Return _ _ _ _ _ Hh). reflexivity.
Qed.

(* ===================================================================== *)
(** ** Instances and counterexamples for the supervisor *)
(* ===================================================================== *)

Lemma retry_ceiling_witness :
  Z.of_nat (reconnect_attempts (loop_entry sc_lost_for_good 0)
     (snd (Main.read_loop 10 "general" "C123" 2 sc_lost_for_good 0
             (loop_entry sc_lost_for_good 0))))
  <= Z.max 2 0 + 1.
Proof.
  refine (proj1 (retry_ceiling sc_lost_for_good "general" "C123" 2 1
                   (loop_entry sc_lost_for_good 0) _ _ _) 10%nat).
  - intros i Hi. replace i with 0%nat by lia. simpl. discriminate.
  - intros [|i] Hi; [lia|]. reflexivity.
  - intros i. reflexivity.
Defined.

(** The run of the fifth scenario: with [retries = 2], the third failed
    attempt is the last, at [retry_count = 2]. *)
Example scenario_ceiling_2 :
  let run fuel :=
    Main.cli token sc_lost_for_good "general" 0 2 false fuel initial_world in
  fst (run 4%nat) = Raise (SystemExit too_many)
  /\ reconnect_attempts (snd (run 0%nat)) (snd (run 4%nat)) = 3%nat
  /\ run 50%nat = run 4%nat.
Proof. vm_compute. repeat split. Qed.

(** The delay between two failed attempts does not depend on
    [retry_count]: a sixteenth of a second. *)
Example backoff_delay : Qred (Main.backoff ^ 2 / 4) = 1 # 16.
Proof. reflexivity. Qed.

(** C1 as stated fails for a negative ceiling: with [retries = -1] the
    first failed attempt is made before the ceiling is looked at, so one
    attempt is made where the claim allows [-1 + 1 = 0]. *)
Lemma retry_ceiling_negative_retries :
  let run fuel :=
    Main.cli token sc_lost_for_good "general" 0 (-1) false fuel initial_world in
  fst (run 3%nat) = Raise (SystemExit too_many)
  /\ reconnect_attempts (snd (run 0%nat)) (snd (run 3%nat)) = 1%nat
  /\ ~ (Z.of_nat (reconnect_attempts (snd (run 0%nat)) (snd (run 3%nat))) <= -1 + 1).
Proof.
  split; [vm_compute; reflexivity|]. split; [vm_compute; reflexivity|].
  replace (reconnect_attempts _ _) with 1%nat by (vm_compute; reflexivity).
  lia.
Qed.

Lemma retry_count_reset_witness :
  fst (Main.loop_pass "general" "C123" 8 (sc_healthy []) 5
         (loop_entry (sc_healthy []) 0)) = Return 0.
Proof.
  refine (proj2 (proj2 (retry_count_reset (sc_healthy []) "general" "C123" 8 5
                          (loop_entry (sc_healthy []) 0) [] _)) eq_refl).
  reflexivity.
Defined.

(** C3 as stated fails: the pass that reconnects successfully takes
    [retry_count] from 2 to 3. *)
Lemma successful_reconnect_changes_retry_count :
  let r := fst (Main.loop_pass "general" "C123" 8 sc_back_at_third 2 twice_failed) in
  rtm_read_outcome sc_back_at_third (reads twice_failed) = ConnectionClosed
  /\ connect_outcome sc_back_at_third (connects twice_failed) = true
  /\ r = Return 3
  /\ r <> Return 2.
Proof.
  split; [vm_compute; reflexivity|]. split; [vm_compute; reflexivity|].
  replace (fst _) with (@Return Z 3) by (vm_compute; reflexivity).
  split; [reflexivity|discriminate].
Qed.

Lemma reconnect_counts_as_retry_witness :
  fst (Main.loop_pass "general" "C123" 8 sc_back_at_third 2 twice_failed)
  = Return (2 + 1)
  /\ exists w3,
       passes sc_back_at_third "general" "C123" 8 3 0 (loop_entry sc_back_at_third 0)
       = (Return 3, w3)
       /\ forall batch r' w4,
            rtm_read_outcome sc_back_at_third (reads w3) = Events batch ->
            Main.loop_pass "general" "C123" 8 sc_back_at_third 3 w3 = (Return r', w4) ->
            r' = 0.
Proof.
  destruct (reconnect_counts_as_retry sc_back_at_third "general" "C123" 8) as [H1 H2].
  split.
  - apply H1; reflexivity.
  - apply H2; reflexivity.
Defined.

(** The fourth scenario, run through [cli]: two failed attempts, the
    third one succeeds, and the next pass finds nothing to read. *)
Example scenario_back_at_third :
  let entry := loop_entry sc_back_at_third 0 in
  fst (passes sc_back_at_third "general" "C123" 8 3 0 entry) = Return 3
  /\ fst (passes sc_back_at_third "general" "C123" 8 4 0 entry) = Return 0
  /\ filter is_log
       (trace (snd (passes sc_back_at_third "general" "C123" 8 3 0 entry)))
     = [EvLog INFO (PStr "Connected to Slack");
        EvLog INFO (PStr "Listening for joins in #general");
        EvLog ERROR (PStr "Lost connection to Slack, reconnecting...");
        EvLog INFO (PStr "Failed to reconnect to Slack");
        EvLog ERROR (PStr "Lost connection to Slack, reconnecting...");
        EvLog INFO (PStr "Failed to reconnect to Slack");
        EvLog ERROR (PStr "Lost connection to Slack, reconnecting...");
        EvLog INFO (PStr "Reconnected to Slack")].
Proof. vm_compute. repeat split. Qed.

Lemma stale_send_is_survived_witness :
  exists w',
    Main.handle_message ada_joins "general" "C123" (sc_stale [ada_joins])
      (after_read (loop_entry (sc_stale [ada_joins]) 0)) = (Return tt, w')
    /\ fst (Main.loop_pass "general" "C123" 8 (sc_stale [ada_joins]) 0
              (loop_entry (sc_stale [ada_joins]) 0)) = Return 0.
Proof.
  destruct (stale_send_is_survived (sc_stale [ada_joins]) "general" "C123" ada_joins
              (after_read (loop_entry (sc_stale [ada_joins]) 0))
              eq_refl eq_refl eq_refl) as (w' & Hh & _ & _ & Hloop).
  exists w'. split; [exact Hh|].
  apply Hloop; reflexivity.
Defined.

(* ===================================================================== *)
(** ** The claims about the event filter *)
(* ===================================================================== *)

(** Any join event with a user and without a profile object stops the
    handler, whatever its channel. *)
Lemma join_without_profile_raises :
  forall (sc : SlackClient) (channel channel_id : string) (message : message)
         (w : world),
    Main.is_join (dict_get message "subtype") = true ->
    truthy (dict_get message "user") = true ->
    is_dict (dict_get message "user_profile") = false ->
    fst (Main.handle_message message channel channel_id sc w) = Raise AttributeError.
Proof.
  intros sc channel channel_id message w Hj Hu Hd.
  pose proof (handle_message_result sc channel channel_id message w) as H.
  now rewrite H, Hj, Hu, Hd.
Qed.

(** An event with a profile object is handled without error, be the name
    there or not. *)
Lemma profile_without_name_tolerated :
  forall (sc : SlackClient) (channel channel_id : string) (message : message)
         (w : world),
    is_dict (dict_get message "user_profile") = true ->
    fst (Main.handle_message message channel channel_id sc w) = Return tt.
Proof.
  intros sc channel channel_id message w Hd.
  pose proof (handle_message_result sc channel channel_id message w) as H.
  rewrite H, Hd. now rewrite andb_false_r.
Qed.

(** C4, evaluated where the code departs from it.  A [channel_join] event
    with a user and no [user_profile]: [user_profile.get] is called on
    [None], the handler raises [AttributeError] outside its [try], and the
    read loop, which handles the connection-closed signal only, lets the
    exception end the process.  A profile without a name, on the other
    hand, is welcomed as [None]. *)
Theorem missing_profile_raises :
  (forall (sc : SlackClient) (channel channel_id : string) (w : world),
      fst (Main.handle_message join_without_profile channel channel_id sc w)
      = Raise AttributeError)
  /\ (forall fuel,
         fst (Main.cli token (sc_healthy [join_without_profile]) "general" 0 8 false
                (S fuel) initial_world) = Raise AttributeError)
  /\ filter is_log
       (trace (snd (Main.handle_message join_without_name "general" "C123"
                      (sc_healthy [join_without_name])
                      (loop_entry (sc_healthy [join_without_name]) 0))))
     = [EvLog INFO (PStr "Connected to Slack");
        EvLog INFO (PStr "Listening for joins in #general");
        EvLog INFO (PStr "Welcomed None to #general")].
Proof.
  split; [|split].
  - intros sc channel channel_id w.
    now apply join_without_profile_raises.
  - intros fuel. reflexivity.
  - reflexivity.
Qed.

(** C5, evaluated where the code departs from it.  The same event meets
    the three conditions for the channel C123, and no send call is made
    for it.  For every event, the send call is made exactly when the three
    conditions hold and the event carries a profile object. *)
Theorem join_without_profile_not_welcomed :
  join_in "C123" join_without_profile = true
  /\ (forall (sc : SlackClient) (channel : string) (w : world),
         sent (trace (snd (Main.handle_message join_without_profile channel "C123"
                             sc w)))
         = sent (trace w))
  /\ (forall (sc : SlackClient) (channel channel_id : string) (message : message)
             (w : world),
         sent (trace (snd (Main.handle_message message channel channel_id sc w)))
         = (sent (trace w)
            ++ if join_in channel_id message
                  && is_dict (dict_get message "user_profile")
               then [EvSend channel (Main.welcome_text (dict_get message "user"))]
               else [])%list).
Proof.
  split; [reflexivity|]. split.
  - intros sc channel w.
    pose proof (handle_message_sent sc channel "C123" join_without_profile w) as H.
    rewrite H. simpl. now rewrite app_nil_r.
  - intros sc channel channel_id message w.
    apply (handle_message_sent sc channel channel_id message w).
Qed.

(** The second and third scenarios: Ada joins C123 and is welcomed; the
    same event for C999 is dropped. *)
Example scenario_join :
  let entry := loop_entry (sc_healthy [ada_joins]) 0 in
  sent (trace (snd (Main.handle_message ada_joins "general" "C123"
                      (sc_healthy [ada_joins]) entry)))
  = [EvSend "general"
       ("Sup, <@U1> :hand:" ++ char newline
        ++ "Make sure to add a party hat to your avatar!")]
  /\ sent (trace (snd (Main.handle_message ada_joins_elsewhere "general" "C123"
                         (sc_healthy [ada_joins_elsewhere]) entry)))
     = [].
Proof. split; reflexivity. Qed.

(* ===================================================================== *)
(** ** Verbosity and control flow *)
(* ===================================================================== *)

Lemma control_app t e :
  control (t ++ [e]) = (control t ++ if is_log e then [] else [e])%list.
Proof. unfold control. rewrite filter_app. simpl. now destruct (is_log e). Qed.

Lemma same_control_refl w : same_control w w.
Proof. repeat split. Qed.

Section Insensitive.

Context {A B : Type}.

Lemma insensitive_ret (a : A) : insensitive (ret a).
Proof. intros w1 w2 H. split; [reflexivity|exact H]. Qed.

Lemma insensitive_raise (e : exn) : insensitive (@raise A e).
Proof. intros w1 w2 H. split; [reflexivity|exact H]. Qed.

Lemma insensitive_sys_exit (text : string) : insensitive (@sys_exit A text).
Proof. apply insensitive_raise. Qed.

Lemma insensitive_out_of_fuel : insensitive (fun w => (@OutOfFuel A, w)).
Proof. intros w1 w2 H. split; [reflexivity|exact H]. Qed.

Lemma insensitive_bind (c : M A) (k : A -> M B) :
  insensitive c -> (forall a, insensitive (k a)) -> insensitive (bind c k).
Proof.
  intros Hc Hk w1 w2 H. unfold bind.
  destruct (Hc w1 w2 H) as [Hr Hw].
  destruct (c w1) as [[a1|e1|] w1'], (c w2) as [[a2|e2|] w2']; simpl in *;
    try discriminate.
  - injection Hr as ->. now apply Hk.
  - injection Hr as ->. now split.
  - now split.
Qed.

Lemma insensitive_try_except (c : M A) (e : exn) (h : M A) :
  insensitive c -> insensitive h -> insensitive (try_except c e h).
Proof.
  intros Hc Hh w1 w2 H. unfold try_except.
  destruct (Hc w1 w2 H) as [Hr Hw].
  destruct (c w1) as [[a1|e1|] w1'], (c w2) as [[a2|e2|] w2']; simpl in *;
    try discriminate.
  - injection Hr as ->. now split.
  - injection Hr as ->. destruct (exn_eqb e2 e); [now apply Hh|now split].
  - now split.
Qed.

End Insensitive.

Lemma insensitive_emit e : insensitive (emit e).
Proof.
  intros w1 w2 (Hc & Hr & Hs & Ht). split; [reflexivity|].
  unfold emit, same_control; simpl. rewrite !control_app. now rewrite Ht.
Qed.

Lemma insensitive_sleep q : insensitive (sleep q).
Proof. apply insensitive_emit. Qed.

Lemma insensitive_logger_log lvl msg : insensitive (logger_log lvl msg).
Proof.
  intros w1 w2 (Hc & Hr & Hs & Ht). unfold logger_log, emit.
  destruct (isEnabledFor lvl w1), (isEnabledFor lvl w2); simpl;
    (split; [reflexivity|]); unfold same_control; simpl;
    rewrite ?control_app; simpl; rewrite ?app_nil_r; auto.
Qed.

Lemma insensitive_logger_setLevel lvl : insensitive (logger_setLevel lvl).
Proof. intros w1 w2 H. split; [reflexivity|exact H]. Qed.

Lemma insensitive_rtm_connect sc : insensitive (rtm_connect sc).
Proof.
  intros w1 w2 (Hc & Hr & Hs & Ht). unfold rtm_connect, same_control; simpl.
  rewrite !control_app, Hc, Ht. auto.
Qed.

Lemma insensitive_rtm_read sc : insensitive (rtm_read sc).
Proof.
  intros w1 w2 (Hc & Hr & Hs & Ht). unfold rtm_read, same_control. rewrite Hr.
  destruct (rtm_read_outcome sc (reads w2)); simpl;
    rewrite !control_app, Ht; auto.
Qed.

Lemma insensitive_rtm_send_message sc channel text :
  insensitive (rtm_send_message sc channel text).
Proof.
  intros w1 w2 (Hc & Hr & Hs & Ht). unfold rtm_send_message, same_control.
  rewrite Hs.
  destruct (send_outcome_of sc (sends w2)); simpl;
    rewrite !control_app, Ht; auto.
Qed.

Lemma insensitive_api_call sc method : insensitive (api_call sc method).
Proof.
  apply insensitive_bind; [apply insensitive_emit|intros; apply insensitive_ret].
Qed.

Lemma insensitive_for_each {A} (l : list A) (body : A -> M unit) :
  (forall x, insensitive (body x)) -> insensitive (for_each l body).
Proof.
  intros Hb. induction l as [|x l IH]; simpl.
  - apply insensitive_ret.
  - apply insensitive_bind; [apply Hb|intros _; exact IH].
Qed.

(** Setting up logging for two verbosity levels gives worlds that differ
    in logger configuration only. *)
Lemma setup_logging_same_control v1 v2 w1 w2 :
  same_control w1 w2 ->
  same_control (snd (setup_logging v1 w1)) (snd (setup_logging v2 w2)).
Proof. intros H. exact H. Qed.

Ltac insensitive_step :=
  match goal with
  | |- insensitive (bind _ _) => apply insensitive_bind; [|intros ?]
  | |- insensitive (try_except _ _ _) => apply insensitive_try_except
  | |- insensitive (ret _) => apply insensitive_ret
  | |- insensitive (raise _) => apply insensitive_raise
  | |- insensitive (sys_exit _) => apply insensitive_sys_exit
  | |- insensitive (emit _) => apply insensitive_emit
  | |- insensitive (sleep _) => apply insensitive_sleep
  | |- insensitive (logger_log _ _) => apply insensitive_logger_log
  | |- insensitive (logger_debug _) => apply insensitive_logger_log
  | |- insensitive (logger_info _) => apply insensitive_logger_log
  | |- insensitive (logger_error _) => apply insensitive_logger_log
  | |- insensitive (logger_setLevel _) => apply insensitive_logger_setLevel
  | |- insensitive (rtm_connect _) => apply insensitive_rtm_connect
  | |- insensitive (rtm_read _) => apply insensitive_rtm_read
  | |- insensitive (rtm_send_message _ _ _) => apply insensitive_rtm_send_message
  | |- insensitive (api_call _ _) => apply insensitive_api_call
  | |- insensitive (for_each _ _) => apply insensitive_for_each; intros ?
  | |- insensitive (if ?b then _ else _) => destruct b
  | |- insensitive (match ?x with _ => _ end) => destruct x
  end.

Lemma insensitive_find_channel_id channel sc :
  insensitive (find_channel_id channel sc).
Proof.
  unfold find_channel_id, listing_add. cbv zeta.
  repeat insensitive_step.
Qed.

Lemma insensitive_handle_message message channel channel_id sc :
  insensitive (Main.handle_message message channel channel_id sc).
Proof.
  unfold Main.handle_message, Main.py_get. cbv zeta.
  repeat insensitive_step.
Qed.

Lemma insensitive_loop_pass channel channel_id retries sc retry_count :
  insensitive (Main.loop_pass channel channel_id retries sc retry_count).
Proof.
  unfold Main.loop_pass. cbv zeta.
  repeat first [apply insensitive_handle_message | insensitive_step].
Qed.

Lemma insensitive_read_loop fuel channel channel_id retries sc :
  forall retry_count,
    insensitive (Main.read_loop fuel channel channel_id retries sc retry_count).
Proof.
  induction fuel as [|fuel IH]; intros r; simpl.
  - apply insensitive_out_of_fuel.
  - apply insensitive_bind; [apply insensitive_loop_pass|intros r'; apply IH].
Qed.

Ltac insensitive_program :=
  repeat first
    [ apply insensitive_find_channel_id
    | apply insensitive_read_loop
    | insensitive_step ].

Lemma main_cli_insensitive tok sc channel retries announce fuel v1 v2 w1 w2 :
  (v1 <= 11)%nat -> (v2 <= 11)%nat ->
  same_control w1 w2 ->
  fst (Main.cli tok sc channel v1 retries announce fuel w1)
  = fst (Main.cli tok sc channel v2 retries announce fuel w2)
  /\ same_control (snd (Main.cli tok sc channel v1 retries announce fuel w1))
                  (snd (Main.cli tok sc channel v2 retries announce fuel w2)).
Proof.
  intros H1 H2 Hw. unfold Main.cli.
  apply Nat.ltb_ge in H1, H2. rewrite H1, H2.
  match goal with
  | |- context [bind (setup_logging v1) ?k] =>
      assert (Hk : insensitive (k tt)) by (cbv beta zeta; insensitive_program);
      change (bind (setup_logging v1) k w1) with (k tt (snd (setup_logging v1 w1)));
      change (bind (setup_logging v2) k w2) with (k tt (snd (setup_logging v2 w2)));
      apply Hk
  end.
  now apply setup_logging_same_control.
Qed.

Lemma send_cli_insensitive tok sc channel retries message v1 v2 w1 w2 :
  (v1 <= 11)%nat -> (v2 <= 11)%nat ->
  same_control w1 w2 ->
  fst (SendMessage.cli tok sc channel v1 retries message w1)
  = fst (SendMessage.cli tok sc channel v2 retries message w2)
  /\ same_control (snd (SendMessage.cli tok sc channel v1 retries message w1))
                  (snd (SendMessage.cli tok sc channel v2 retries message w2)).
Proof.
  intros H1 H2 Hw. unfold SendMessage.cli.
  apply Nat.ltb_ge in H1, H2. rewrite H1, H2.
  match goal with
  | |- context [bind (setup_logging v1) ?k] =>
      assert (Hk : insensitive (k tt)) by (cbv beta zeta; insensitive_program);
      change (bind (setup_logging v1) k w1) with (k tt (snd (setup_logging v1 w1)));
      change (bind (setup_logging v2) k w2) with (k tt (snd (setup_logging v2 w2)));
      apply Hk
  end.
  now apply setup_logging_same_control.
Qed.

(** C9 (as amended).  Two runs of either program that differ in the
    verbosity level only, both levels at most 11, end with the same result
    and make the same calls to the client and the clock in the same order:
    they differ in the log records they emit and in nothing else.  A level
    above 11 is refused: the process exits at once with the fatal message,
    having done nothing. *)
Theorem verbosity_only_affects_logging :
  forall (tok : option string) (sc : SlackClient) (channel : string) (retries : Z)
         (announce : bool) (message : option string) (fuel : nat) (w : world)
         (v1 v2 : nat),
    ((v1 <= 11)%nat -> (v2 <= 11)%nat ->
     let run1 := Main.cli tok sc channel v1 retries announce fuel w in
     let run2 := Main.cli tok sc channel v2 retries announce fuel w in
     let send1 := SendMessage.cli tok sc channel v1 retries message w in
     let send2 := SendMessage.cli tok sc channel v2 retries message w in
     fst run1 = fst run2
     /\ control (trace (snd run1)) = control (trace (snd run2))
     /\ fst send1 = fst send2
     /\ control (trace (snd send1)) = control (trace (snd send2)))
    /\ ((11 < v1)%nat ->
        Main.cli tok sc channel v1 retries announce fuel w
        = (Raise (SystemExit beyond_11), w)
        /\ SendMessage.cli tok sc channel v1 retries message w
           = (Raise (SystemExit beyond_11), w)).
Proof.
  intros tok sc channel retries announce message fuel w v1 v2. split.
  - intros H1 H2.
    destruct (main_cli_insensitive tok sc channel retries announce fuel v1 v2 w w
                H1 H2 (same_control_refl w)) as [Hr (_ & _ & _ & Ht)].
    destruct (send_cli_insensitive tok sc channel retries message v1 v2 w w
                H1 H2 (same_control_refl w)) as [Hr' (_ & _ & _ & Ht')].
    cbv zeta. auto.
  - intros H. apply Nat.ltb_lt in H.
    unfold Main.cli, SendMessage.cli. rewrite H. split; reflexivity.
Qed.

Lemma verbosity_only_affects_logging_witness :
  let run1 :=
    Main.cli token (sc_healthy [ada_joins]) "general" 0 8 true 3 initial_world in
  let run2 :=
    Main.cli token (sc_healthy [ada_joins]) "general" 11 8 true 3 initial_world in
  fst run1 = fst run2
  /\ control (trace (snd run1)) = control (trace (snd run2))
  /\ trace (snd run1) <> trace (snd run2).
Proof.
  destruct (proj1 (verbosity_only_affects_logging token (sc_healthy [ada_joins])
                     "general" 8 true None 3 initial_world 0 11))
    as (H1 & H2 & _); [lia|lia|].
  split; [exact H1|]. split; [exact H2|].
  vm_compute. discriminate.
Defined.

(** C9 as stated fails: the level 12 differs from the level 0 in verbosity
    only, and the one run exits with status 1 before connecting while the
    other connects, resolves the channel, sends and exits with status 0. *)
Lemma verbosity_beyond_11_exits :
  let quiet := SendMessage.cli token (sc_healthy []) "general" 0 8 (Some "hi")
                 initial_world in
  let loud := SendMessage.cli token (sc_healthy []) "general" 12 8 (Some "hi")
                initial_world in
  exit_status (fst quiet) = Some 0
  /\ exit_status (fst loud) = Some 1
  /\ sent (trace (snd quiet)) = [EvSend "general" "hi"]
  /\ control (trace (snd loud)) = []
  /\ control (trace (snd quiet)) <> control (trace (snd loud)).
Proof.
  split; [reflexivity|]. split; [reflexivity|]. split; [reflexivity|].
  split; [reflexivity|]. vm_compute. discriminate.
Qed.

(* ===================================================================== *)
(** ** The claims about channel resolution and the one-shot sender *)
(* ===================================================================== *)

Lemma find_channel_id_returns channel sc channel_id w0 :
  fst (find_channel_id channel sc w0) = Return channel_id ->
  forall w, find_channel_id channel sc w = (Return channel_id, listed w).
Proof.
  intros H w. rewrite (surjective_pairing (find_channel_id channel sc w)).
  now rewrite find_channel_id_world, (find_channel_id_any_world sc channel w w0), H.
Qed.

(** Whatever stops the resolver stops both programs: nothing around the
    call handles an exception. *)
Lemma resolver_failure_is_fatal tok sc channel verbose retries announce message fuel e :
  tok <> EmptyString ->
  (verbose <= 11)%nat ->
  connect_outcome sc 0 = true ->
  (forall w, find_channel_id channel sc w = (Raise e, listed w)) ->
  fst (Main.cli (Some tok) sc channel verbose retries announce fuel initial_world)
  = Raise e
  /\ fst (SendMessage.cli (Some tok) sc channel verbose retries message initial_world)
     = Raise e.
Proof.
  intros Htok Hv Hc Hf.
  unfold Main.cli, SendMessage.cli.
  rewrite (proj2 (Nat.ltb_ge 11 verbose) Hv).
  destruct tok as [|c0 t0]; [contradiction|].
  set (f := find_channel_id channel sc) in *. clearbody f.
  unfold bind, setup_logging, rtm_connect, logger_info, logger_debug, logger_log,
    emit, isEnabledFor, effective_level.
  cbn [connects reads sends trace root_level logger_level initial_world fst snd].
  rewrite Hc.
  destruct (verbose <? 1)%nat; cbn; rewrite !Hf; cbn; split; reflexivity.
Qed.

(** C6, evaluated where the code departs from it.  With the public listing
    unavailable and the group G1 named general in the private one, the
    resolver neither returns G1 for [general] nor reports that [nowhere]
    cannot be found: in both cases [None + list] raises [TypeError]. *)
Theorem resolver_needs_both_listings :
  channels_listing sc_groups_only = None
  /\ groups_listing sc_groups_only = Some [mkEntry "G1" "general"]
  /\ (forall w, find_channel_id "general" sc_groups_only w
                = (Raise TypeError, listed w))
  /\ (forall w, find_channel_id "nowhere" sc_groups_only w
                = (Raise TypeError, listed w)).
Proof.
  split; [reflexivity|]. split; [reflexivity|].
  split; intros w; apply find_channel_id_mixed; left; split; reflexivity.
Qed.

(** The first scenario, and the exact comparison of names. *)
Example scenario_resolve :
  fst (find_channel_id "general" (sc_healthy []) initial_world) = Return "C123"
  /\ fst (find_channel_id "General" (sc_healthy []) initial_world)
     = Raise (SystemExit (bail "fatal" red "Couldn't find #General")).
Proof. split; reflexivity. Qed.

(** C10.  When exactly one of the two listings is unavailable and the
    other holds at least one entry, the resolver raises [TypeError]: not
    the enumeration error, not the not-found error, not an id.  Nothing
    handles it, in either program. *)
Theorem one_listing_unavailable_is_type_error :
  forall (sc : SlackClient) (channel : string) (l : list entry),
    l <> [] ->
    (channels_listing sc = None /\ groups_listing sc = Some l)
    \/ (channels_listing sc = Some l /\ groups_listing sc = None) ->
    (forall w, find_channel_id channel sc w = (Raise TypeError, listed w))
    /\ (forall tok verbose retries announce message fuel,
           tok <> EmptyString ->
           (verbose <= 11)%nat ->
           connect_outcome sc 0 = true ->
           fst (Main.cli (Some tok) sc channel verbose retries announce fuel
                  initial_world) = Raise TypeError
           /\ fst (SendMessage.cli (Some tok) sc channel verbose retries message
                     initial_world) = Raise TypeError).
Proof.
  intros sc channel l Hl H.
  assert (Hf : forall w, find_channel_id channel sc w = (Raise TypeError, listed w)).
  { intros w. apply find_channel_id_mixed.
    destruct l as [|x l]; [now elim Hl|].
    destruct H as [[H1 H2]|[H1 H2]]; [left|right]; rewrite H1, H2; split; reflexivity. }
  split; [exact Hf|].
  intros tok verbose retries announce message fuel Htok Hv Hc.
  now apply resolver_failure_is_fatal.
Qed.

Lemma one_listing_unavailable_is_type_error_witness :
  find_channel_id "general" sc_groups_only initial_world
  = (Raise TypeError, listed initial_world)
  /\ fst (Main.cli token sc_groups_only "general" 0 8 false 5 initial_world)
     = Raise TypeError.
Proof.
  destruct (one_listing_unavailable_is_type_error sc_groups_only "general"
              [mkEntry "G1" "general"]) as [H1 H2].
  - discriminate.
  - left. split; reflexivity.
  - split; [apply H1|].
    apply (H2 "xoxb-1" 0%nat 8 false None 5%nat); [discriminate|lia|reflexivity].
Defined.

(** C8 (as amended).  The one-shot program, given a token, a verbosity it
    accepts, a connect that succeeds, a channel that resolves and a message
    text that is not empty: it makes exactly one send call, with that text,
    addressed to the channel by its name, and it never calls [rtm_read],
    however the send call ends; when the send call returns, the program
    returns, which is exit status 0. *)
Theorem one_shot_sends_once :
  forall (tok : string) (sc : SlackClient) (channel : string) (verbose : nat)
         (retries : Z) (text channel_id : string),
    tok <> EmptyString ->
    (verbose <= 11)%nat ->
    connect_outcome sc 0 = true ->
    fst (find_channel_id channel sc initial_world) = Return channel_id ->
    text <> EmptyString ->
    let run := SendMessage.cli (Some tok) sc channel verbose retries (Some text)
                 initial_world in
    sent (trace (snd run)) = [EvSend channel text]
    /\ control (trace (snd run))
       = [EvConnect true; EvApiCall "channels.list"; EvApiCall "groups.list";
          EvSend channel text]
    /\ reads (snd run) = 0%nat
    /\ (send_outcome_of sc 0 = Sent ->
        fst run = Return tt /\ exit_status (fst run) = Some 0).
Proof.
  intros tok sc channel verbose retries text channel_id Htok Hv Hc Hres Htext.
  pose proof (find_channel_id_returns channel sc channel_id initial_world Hres) as Hf.
  unfold SendMessage.cli.
  rewrite (proj2 (Nat.ltb_ge 11 verbose) Hv).
  destruct tok as [|c0 t0]; [contradiction|].
  destruct text as [|c1 t1]; [contradiction|].
  set (f := find_channel_id channel sc) in *. clearbody f.
  unfold bind, setup_logging, rtm_connect, logger_info, logger_debug, logger_log,
    rtm_send_message, emit, isEnabledFor, effective_level.
  cbn [connects reads sends trace root_level logger_level initial_world fst snd].
  rewrite Hc.
  destruct (verbose <? 1)%nat; cbn; rewrite Hf; cbn;
    destruct (send_outcome_of sc 0); cbn;
    (split; [reflexivity|]); (split; [reflexivity|]); (split; [reflexivity|]);
    intros Hs; first [discriminate Hs | split; reflexivity].
Qed.

(** The sixth scenario. *)
Lemma one_shot_sends_once_witness :
  let run := SendMessage.cli token (sc_healthy []) "general" 0 8 (Some "hi")
               initial_world in
  sent (trace (snd run)) = [EvSend "general" "hi"]
  /\ control (trace (snd run))
     = [EvConnect true; EvApiCall "channels.list"; EvApiCall "groups.list";
        EvSend "general" "hi"]
  /\ reads (snd run) = 0%nat
  /\ fst run = Return tt
  /\ exit_status (fst run) = Some 0.
Proof.
  destruct (one_shot_sends_once "xoxb-1" (sc_healthy []) "general" 0 8 "hi" "C123")
    as (H1 & H2 & H3 & H4);
    [discriminate|lia|reflexivity|reflexivity|discriminate|].
  destruct (H4 eq_refl) as [H5 H6].
  split; [exact H1|]. split; [exact H2|]. split; [exact H3|].
  split; [exact H5|exact H6].
Defined.

(** C8 as stated fails twice over.  With the message option given as the
    empty text, the connect and the resolution succeed and no send call is
    made; with the text [hi] and a service on which the send call lacks
    the capability, the one send call raises and the process ends with
    status 1. *)
Lemma one_shot_claim_fails :
  let empty := SendMessage.cli token (sc_healthy []) "general" 0 8
                 (Some EmptyString) initial_world in
  let stale := SendMessage.cli token (sc_stale []) "general" 0 8 (Some "hi")
                 initial_world in
  connect_outcome (sc_healthy []) 0 = true
  /\ fst (find_channel_id "general" (sc_healthy []) initial_world) = Return "C123"
  /\ sent (trace (snd empty)) = []
  /\ connect_outcome (sc_stale []) 0 = true
  /\ fst (find_channel_id "general" (sc_stale []) initial_world) = Return "C123"
  /\ sent (trace (snd stale)) = [EvSend "general" "hi"]
  /\ exit_status (fst stale) = Some 1
  /\ exit_status (fst stale) <> Some 0.
Proof.
  repeat (split; [reflexivity|]). discriminate.
Qed.

(* ===================================================================== *)
(** ** Further properties: channel resolution *)
(* ===================================================================== *)

Lemma matching_app channel l1 l2 :
  matching channel (l1 ++ l2) = (matching channel l1 ++ matching channel l2)%list.
Proof. unfold matching. apply filter_app. Qed.

Lemma matching_In channel l c :
  In c (matching channel l) -> In c l /\ chan_name c = channel.
Proof.
  unfold matching. intros H. apply filter_In in H as [H1 H2].
  split; [assumption|now apply String.eqb_eq].
Qed.

(** X1.  With both listings available, a channel name that some entry
    bears resolves to the id of the first such entry of the public listing
    followed by the private one: no entry before it bears the name. *)
Theorem resolver_first_match :
  forall (sc : SlackClient) (channel : string) (cl gl : list entry) (w : world),
    channels_listing sc = Some cl ->
    groups_listing sc = Some gl ->
    (exists c, In c (cl ++ gl) /\ chan_name c = channel) ->
    exists before c after,
      (cl ++ gl = before ++ c :: after)%list
      /\ chan_name c = channel
      /\ (forall b, In b before -> chan_name b <> channel)
      /\ find_channel_id channel sc w = (Return (chan_id c), listed w).
Proof.
  intros sc channel cl gl w H1 H2 (c0 & Hin & Hname).
  assert (Hne : (cl ++ gl)%list <> []) by (intros E; rewrite E in Hin; destruct Hin).
  pose proof (find_channel_id_lookup sc channel w cl gl H1 H2 Hne) as Hf.
  destruct (matching channel (cl ++ gl)) as [|c rest] eqn:Hm.
  - now elim (proj1 (matching_nil channel _) Hm c0 Hin).
  - destruct (matching_first channel _ _ _ Hm) as (before & after & Heq & Hn & Hb).
    exists before, c, after. repeat (split; [assumption|]).
    rewrite (surjective_pairing (find_channel_id channel sc w)).
    now rewrite Hf, find_channel_id_world.
Qed.

Lemma resolver_first_match_witness :
  exists before c after,
    ([mkEntry "C1" "random"; mkEntry "C123" "general"] ++ [mkEntry "G1" "general"]
     = before ++ c :: after)%list
    /\ chan_name c = "general"
    /\ (forall b, In b before -> chan_name b <> "general")
    /\ find_channel_id "general" sc_two_generals initial_world
       = (Return (chan_id c), listed initial_world).
Proof.
  apply (resolver_first_match sc_two_generals "general"
           [mkEntry "C1" "random"; mkEntry "C123" "general"]
           [mkEntry "G1" "general"] initial_world eq_refl eq_refl).
  exists (mkEntry "G1" "general"). split; [simpl; auto|reflexivity].
Defined.

(** X2.  With both listings available and not both empty, a channel name
    that no entry bears stops the process with the not-found message, after
    the two listing calls and nothing else. *)
Theorem resolver_not_found :
  forall (sc : SlackClient) (channel : string) (cl gl : list entry) (w : world),
    channels_listing sc = Some cl ->
    groups_listing sc = Some gl ->
    (cl ++ gl)%list <> [] ->
    (forall c, In c (cl ++ gl) -> chan_name c <> channel) ->
    find_channel_id channel sc w
    = (Raise (SystemExit (not_found channel)), listed w).
Proof.
  intros sc channel cl gl w H1 H2 Hne Hnone.
  rewrite (surjective_pairing (find_channel_id channel sc w)).
  rewrite find_channel_id_world.
  rewrite (find_channel_id_lookup sc channel w cl gl H1 H2 Hne).
  now rewrite (proj2 (matching_nil channel (cl ++ gl)) Hnone).
Qed.

Lemma resolver_not_found_witness :
  find_channel_id "announcements" sc_two_generals initial_world
  = (Raise (SystemExit (not_found "announcements")), listed initial_world).
Proof.
  apply (resolver_not_found sc_two_generals "announcements"
           [mkEntry "C1" "random"; mkEntry "C123" "general"]
           [mkEntry "G1" "general"] initial_world eq_refl eq_refl).
  - discriminate.
  - intros c [<-|[<-|[<-|[]]]]; discriminate.
Defined.

(** X3.  When each listing is missing or empty, whatever the mix of the
    two, the process stops with the enumeration message, for every channel
    name: the not-found message is never given for an empty workspace. *)
Theorem resolver_nothing_listed :
  forall (sc : SlackClient) (channel : string) (w : world),
    (channels_listing sc = None \/ channels_listing sc = Some []) ->
    (groups_listing sc = None \/ groups_listing sc = Some []) ->
    find_channel_id channel sc w
    = (Raise (SystemExit enumeration_failed), listed w).
Proof.
  intros sc channel w H1 H2.
  rewrite (surjective_pairing (find_channel_id channel sc w)).
  rewrite find_channel_id_world.
  rewrite (find_channel_id_enumeration sc channel w); [reflexivity| |].
  - destruct H1 as [-> | ->]; reflexivity.
  - destruct H2 as [-> | ->]; reflexivity.
Qed.

Lemma resolver_nothing_listed_witness :
  find_channel_id "general"
    (mkSlackClient (fun _ => true) (fun _ => Events []) (fun _ => Sent)
       (fun method =>
          if String.eqb method "channels.list" then [("channels", [])] else []))
    initial_world
  = (Raise (SystemExit enumeration_failed), listed initial_world).
Proof.
  apply resolver_nothing_listed; [right|left]; reflexivity.
Defined.

(** X4.  A public channel takes precedence over a private group of the
    same name: when the public listing holds an entry of that name, the id
    returned is that of a public entry, whatever the private listing
    holds. *)
Theorem resolver_prefers_public :
  forall (sc : SlackClient) (channel : string) (cl gl : list entry) (w : world),
    channels_listing sc = Some cl ->
    groups_listing sc = Some gl ->
    (exists c, In c cl /\ chan_name c = channel) ->
    exists c,
      In c cl /\ chan_name c = channel
      /\ fst (find_channel_id channel sc w) = Return (chan_id c).
Proof.
  intros sc channel cl gl w H1 H2 (c0 & Hin & Hname).
  assert (Hne : (cl ++ gl)%list <> []).
  { destruct cl; [destruct Hin|discriminate]. }
  rewrite (find_channel_id_lookup sc channel w cl gl H1 H2 Hne).
  rewrite matching_app.
  destruct (matching channel cl) as [|c rest] eqn:Hm.
  - now elim (proj1 (matching_nil channel cl) Hm c0 Hin).
  - exists c.
    assert (Hc : In c (matching channel cl)) by (rewrite Hm; now left).
    apply matching_In in Hc as [Hc1 Hc2]. auto.
Qed.

Lemma resolver_prefers_public_witness :
  exists c,
    In c [mkEntry "C1" "random"; mkEntry "C123" "general"]
    /\ chan_name c = "general"
    /\ fst (find_channel_id "general" sc_two_generals initial_world)
       = Return (chan_id c).
Proof.
  apply (resolver_prefers_public sc_two_generals "general"
           [mkEntry "C1" "random"; mkEntry "C123" "general"]
           [mkEntry "G1" "general"] initial_world eq_refl eq_refl).
  exists (mkEntry "C123" "general"). split; [simpl; auto|reflexivity].
Defined.

(** X5.  Resolution does nothing but the two listing calls, public first,
    on every path, be it a result, an exit or the type error; it does not
    log, and its result does not depend on the world it runs in. *)
Theorem resolver_only_lists :
  forall (sc : SlackClient) (channel : string) (w w' : world),
    snd (find_channel_id channel sc w) = listed w
    /\ fst (find_channel_id channel sc w) = fst (find_channel_id channel sc w').
Proof.
  intros sc channel w w'. split.
  - apply find_channel_id_world.
  - apply find_channel_id_any_world.
Qed.

(* ===================================================================== *)
(** ** Further properties: the handler *)
(* ===================================================================== *)

(** X6.  An event that is not a join with a user, and a join that carries
    a profile and is for another channel, are dropped: the handler returns
    having done nothing but hand the event to [logger.debug]. *)
Theorem other_events_are_dropped :
  forall (sc : SlackClient) (channel channel_id : string) (message : message)
         (w : world),
    Main.is_join (dict_get message "subtype") && truthy (dict_get message "user")
    = false
    \/ (is_dict (dict_get message "user_profile") = true
        /\ py_eq_str (dict_get message "channel") channel_id = false) ->
    Main.handle_message message channel channel_id sc w
    = (Return tt, debugged message w).
Proof.
  intros sc channel channel_id message w H.
  unfold debugged. open_handler.
  destruct (isEnabledFor DEBUG w); cbn [fst snd];
    (destruct H as [H|[Hd Hc]];
     [rewrite H; reflexivity
     |rewrite Hc;
      destruct (dict_get message "user_profile"); try discriminate;
      destruct (_ && _); reflexivity]).
Qed.

Lemma other_events_are_dropped_witness :
  Main.handle_message ada_joins_elsewhere "general" "C123" (sc_healthy [])
    initial_world
  = (Return tt, debugged ada_joins_elsewhere initial_world)
  /\ Main.handle_message [("type", PStr "presence_change"); ("user", PStr "U1")]
       "general" "C123" (sc_healthy []) initial_world
     = (Return tt,
        debugged [("type", PStr "presence_change"); ("user", PStr "U1")]
          initial_world).
Proof.
  split.
  - apply other_events_are_dropped. right. split; reflexivity.
  - apply other_events_are_dropped. left. reflexivity.
Defined.

(** X7.  A join for the target channel whose send call returns: one send
    call is made, to the channel by its name, with the welcome addressed
    to the user; then the record [Welcomed <name> to #<channel>] goes to
    [logger.info], the name being that of the profile or [None]; the
    logger's level is left as it was. *)
Theorem welcome_is_sent_then_logged :
  forall (sc : SlackClient) (channel channel_id : string) (message : message)
         (profile : pydict) (w : world),
    join_in channel_id message = true ->
    dict_get message "user_profile" = PDict profile ->
    send_outcome_of sc (sends w) = Sent ->
    Main.handle_message message channel channel_id sc w
    = (Return tt,
       mkWorld (connects w) (reads w) (S (sends w)) (root_level w) (logger_level w)
         (trace (debugged message w)
          ++ welcome channel message
             :: (if isEnabledFor INFO w
                 then [EvLog INFO
                         (PStr ("Welcomed " ++ py_str (dict_get profile "name")
                                ++ " to #" ++ channel))]
                 else []))%list).
Proof.
  unfold join_in, debugged, welcome.
  intros sc channel channel_id message profile w Hj Hd Hs.
  apply andb_prop in Hj as [Hj Hc]. apply andb_prop in Hj as [Hj Hu].
  open_handler. rewrite Hj, Hu, Hc, Hd. cbn [andb].
  unfold isEnabledFor, effective_level.
  destruct (level_num _ <=? level_num DEBUG);
    cbn [fst snd sends trace logger_level root_level];
    rewrite Hs; cbn [fst snd sends trace logger_level root_level exn_eqb];
    destruct (level_num _ <=? level_num INFO);
    cbn [fst snd sends trace logger_level root_level connects reads];
    rewrite <- ?app_assoc; reflexivity.
Qed.

Lemma welcome_is_sent_then_logged_witness :
  trace (snd (Main.handle_message join_without_name "general" "C123"
                (sc_healthy []) initial_world))
  = [EvSend "general" (Main.welcome_text (PStr "U1"))].
Proof.
  rewrite (welcome_is_sent_then_logged (sc_healthy []) "general" "C123"
             join_without_name [("real_name", PStr "Ada L.")] initial_world
             eq_refl eq_refl eq_refl).
  reflexivity.
Defined.

Lemma unhandled_false_profile channel_id message :
  unhandled message = false ->
  join_in channel_id message && is_dict (dict_get message "user_profile")
  = join_in channel_id message.
Proof.
  unfold unhandled, join_in.
  destruct (Main.is_join _), (truthy _), (py_eq_str _ _),
    (is_dict (dict_get message "user_profile")); simpl; congruence.
Qed.

Lemma handle_batch_app sc channel channel_id l1 l2 w :
  handle_batch sc channel channel_id (l1 ++ l2) w
  = bind (handle_batch sc channel channel_id l1)
         (fun _ => handle_batch sc channel channel_id l2) w.
Proof.
  unfold handle_batch. revert w. induction l1 as [|m l1 IH]; intros w; simpl.
  - reflexivity.
  - rewrite bind_assoc. apply bind_ext. intros _ w'. apply IH.
Qed.

Lemma handle_batch_all_handled sc channel channel_id batch :
  forall w,
    (forall m, In m batch -> unhandled m = false) ->
    fst (handle_batch sc channel channel_id batch w) = Return tt
    /\ sent (trace (snd (handle_batch sc channel channel_id batch w)))
       = (sent (trace w)
          ++ map (welcome channel) (filter (join_in channel_id) batch))%list.
Proof.
  induction batch as [|m batch IH]; intros w Hok.
  - simpl. now rewrite app_nil_r.
  - pose proof (handle_message_result sc channel channel_id m w) as Hr.
    pose proof (handle_message_sent sc channel channel_id m w) as Hs.
    assert (Hm : unhandled m = false) by (apply Hok; now left).
    rewrite (unhandled_false_profile channel_id m Hm) in Hs.
    unfold unhandled in Hm. rewrite Hm in Hr.
    unfold handle_batch; simpl. unfold bind.
    destruct (Main.handle_message m channel channel_id sc w) as [[[]|e|] w1];
      try discriminate.
    simpl in Hs.
    destruct (IH w1) as [IH1 IH2]; [intros m' Hin; apply Hok; now right|].
    unfold handle_batch in IH1, IH2. split; [exact IH1|].
    rewrite IH2, Hs. unfold welcome.
    destruct (join_in channel_id m); simpl;
      now rewrite <- ?app_assoc, ?app_nil_r.
Qed.

(** X8.  A batch none of whose events makes the handler raise is handled
    to its end, and the send calls made for it are the welcomes of its
    joins for the target channel, one for each, in the order of the batch.
    How the send calls end does not matter. *)
Theorem batch_is_welcomed_in_order :
  forall (sc : SlackClient) (channel channel_id : string) (batch : list message)
         (w : world),
    (forall m, In m batch -> unhandled m = false) ->
    fst (for_each batch
           (fun message => Main.handle_message message channel channel_id sc) w)
    = Return tt
    /\ sent (trace (snd (for_each batch
                (fun message => Main.handle_message message channel channel_id sc) w)))
       = (sent (trace w)
          ++ map (welcome channel) (filter (join_in channel_id) batch))%list.
Proof.
  intros sc channel channel_id batch w Hok.
  apply (handle_batch_all_handled sc channel channel_id batch w Hok).
Qed.

Lemma batch_is_welcomed_in_order_witness :
  sent (trace (snd (for_each [ada_joins; ada_joins_elsewhere; join_without_name]
          (fun message => Main.handle_message message "general" "C123" (sc_stale []))
          initial_world)))
  = [welcome "general" ada_joins; welcome "general" join_without_name].
Proof.
  refine (proj2 (batch_is_welcomed_in_order (sc_stale []) "general" "C123"
                   [ada_joins; ada_joins_elsewhere; join_without_name]
                   initial_world _)).
  intros m [<-|[<-|[<-|[]]]]; reflexivity.
Defined.

(** X9.  An event that makes the handler raise ends the batch: the events
    before it were handled, the events after it are never looked at, and
    no welcome is sent for them. *)
Theorem unhandled_event_ends_the_batch :
  forall (sc : SlackClient) (channel channel_id : string)
         (before after : list message) (bad : message) (w : world),
    (forall m, In m before -> unhandled m = false) ->
    unhandled bad = true ->
    fst (for_each (before ++ bad :: after)
           (fun message => Main.handle_message message channel channel_id sc) w)
    = Raise AttributeError
    /\ sent (trace (snd (for_each (before ++ bad :: after)
                (fun message => Main.handle_message message channel channel_id sc) w)))
       = (sent (trace w)
          ++ map (welcome channel) (filter (join_in channel_id) before))%list.
Proof.
  intros sc channel channel_id before after bad w Hok Hbad.
  change (for_each (before ++ bad :: after) _)
    with (handle_batch sc channel channel_id (before ++ bad :: after)).
  rewrite handle_batch_app.
  destruct (handle_batch_all_handled sc channel channel_id before w Hok) as [H1 H2].
  unfold bind.
  destruct (handle_batch sc channel channel_id before w) as [[[]|e|] w1];
    try discriminate.
  simpl in H2.
  pose proof (handle_message_result sc channel channel_id bad w1) as Hr.
  pose proof (handle_message_sent sc channel channel_id bad w1) as Hs.
  unfold unhandled in Hbad. rewrite Hbad in Hr.
  assert (Hd : is_dict (dict_get bad "user_profile") = false).
  { apply andb_prop in Hbad as [_ Hbad]. now apply negb_true_iff in Hbad. }
  rewrite Hd, andb_false_r, app_nil_r in Hs.
  unfold handle_batch; simpl. unfold bind.
  destruct (Main.handle_message bad channel channel_id sc w1) as [[[]|e|] w2];
    try discriminate.
  simpl in *. injection Hr as ->. split; [reflexivity|].
  now rewrite Hs, H2.
Qed.

Lemma unhandled_event_ends_the_batch_witness :
  sent (trace (snd (for_each
          ([ada_joins] ++ join_without_profile :: [join_without_name])
          (fun message => Main.handle_message message "general" "C123" (sc_healthy []))
          initial_world)))
  = [welcome "general" ada_joins].
Proof.
  refine (proj2 (unhandled_event_ends_the_batch (sc_healthy []) "general" "C123"
                   [ada_joins] [join_without_name] join_without_profile
                   initial_world _ eq_refl)).
  intros m [<-|[]]; reflexivity.
Defined.

(* ===================================================================== *)
(** ** What a computation adds to the trace *)
(* ===================================================================== *)

Section Appends.

Variable I : world -> Prop.
Variable P : event -> Prop.
Hypothesis I_on_levels : on_levels I.

Lemma appends_ret {A} (a : A) : appends I P (ret a).
Proof.
  intros w Hw. split; [exact Hw|]. exists []. simpl. now rewrite app_nil_r.
Qed.

Lemma appends_raise {A} (e : exn) : appends I P (@raise A e).
Proof.
  intros w Hw. split; [exact Hw|]. exists []. simpl. now rewrite app_nil_r.
Qed.

Lemma appends_sys_exit {A} (text : string) : appends I P (@sys_exit A text).
Proof. apply appends_raise. Qed.

Lemma appends_out_of_fuel {A} : appends I P (fun w => (@OutOfFuel A, w)).
Proof.
  intros w Hw. split; [exact Hw|]. exists []. simpl. now rewrite app_nil_r.
Qed.

Lemma appends_bind {A B} (c : M A) (k : A -> M B) :
  appends I P c -> (forall a, appends I P (k a)) -> appends I P (bind c k).
Proof.
  intros Hc Hk w Hw. unfold bind.
  destruct (Hc w Hw) as (Hw1 & d1 & Ht1 & Hd1).
  destruct (c w) as [[a|e|] w1]; simpl in *; eauto.
  destruct (Hk a w1 Hw1) as (Hw2 & d2 & Ht2 & Hd2).
  split; [exact Hw2|]. exists (d1 ++ d2)%list.
  rewrite Ht2, Ht1, app_assoc. split; [reflexivity|now apply Forall_app].
Qed.

Lemma appends_try_except {A} (c : M A) (e : exn) (h : M A) :
  appends I P c -> appends I P h -> appends I P (try_except c e h).
Proof.
  intros Hc Hh w Hw. unfold try_except.
  destruct (Hc w Hw) as (Hw1 & d1 & Ht1 & Hd1).
  destruct (c w) as [[a|e'|] w1]; simpl in *; eauto.
  destruct (exn_eqb e' e); simpl; eauto.
  destruct (Hh w1 Hw1) as (Hw2 & d2 & Ht2 & Hd2).
  split; [exact Hw2|]. exists (d1 ++ d2)%list.
  rewrite Ht2, Ht1, app_assoc. split; [reflexivity|now apply Forall_app].
Qed.

Lemma appends_for_each {A} (l : list A) (body : A -> M unit) :
  (forall x, appends I P (body x)) -> appends I P (for_each l body).
Proof.
  intros Hb. induction l as [|x l IH]; simpl.
  - apply appends_ret.
  - apply appends_bind; [apply Hb|intros _; exact IH].
Qed.

Lemma appends_emit e : P e -> appends I P (emit e).
Proof.
  intros He w Hw. split.
  - apply (I_on_levels w); [reflexivity|reflexivity|exact Hw].
  - exists [e]. split; [reflexivity|]. now constructor.
Qed.

Lemma appends_sleep q : P (EvSleep q) -> appends I P (sleep q).
Proof. apply appends_emit. Qed.

Lemma appends_logger_log lvl msg :
  (forall w, I w -> isEnabledFor lvl w = true -> P (EvLog lvl msg)) ->
  appends I P (logger_log lvl msg).
Proof.
  intros H w Hw. unfold logger_log.
  destruct (isEnabledFor lvl w) eqn:E.
  - apply appends_emit; [now apply (H w)|exact Hw].
  - split; [exact Hw|]. exists []. simpl. now rewrite app_nil_r.
Qed.

Lemma appends_logger_setLevel lvl :
  (forall w, I w -> I (snd (logger_setLevel lvl w))) ->
  appends I P (logger_setLevel lvl).
Proof.
  intros H w Hw. split; [now apply H|].
  exists []. simpl. now rewrite app_nil_r.
Qed.

Lemma appends_rtm_connect sc :
  (forall ok, P (EvConnect ok)) -> appends I P (rtm_connect sc).
Proof.
  intros He w Hw. split.
  - apply (I_on_levels w); [reflexivity|reflexivity|exact Hw].
  - eexists. split; [reflexivity|]. constructor; [apply He|constructor].
Qed.

Lemma appends_rtm_read sc : P EvRead -> appends I P (rtm_read sc).
Proof.
  intros He w Hw. unfold rtm_read.
  destruct (rtm_read_outcome sc (reads w)); simpl;
    (split;
     [apply (I_on_levels w); [reflexivity|reflexivity|exact Hw]
     |exists [EvRead]; split; [reflexivity|now constructor]]).
Qed.

Lemma appends_rtm_send_message sc channel text :
  P (EvSend channel text) -> appends I P (rtm_send_message sc channel text).
Proof.
  intros He w Hw. unfold rtm_send_message.
  destruct (send_outcome_of sc (sends w)); simpl;
    (split;
     [apply (I_on_levels w); [reflexivity|reflexivity|exact Hw]
     |eexists; split; [reflexivity|now constructor]]).
Qed.

Lemma appends_api_call sc method :
  P (EvApiCall method) -> appends I P (api_call sc method).
Proof.
  intros He. apply appends_bind; [now apply appends_emit|intros; apply appends_ret].
Qed.

End Appends.

Ltac appends_step side :=
  match goal with
  | |- appends _ _ (bind _ _) => apply appends_bind; [|intros ?]
  | |- appends _ _ (try_except _ _ _) => apply appends_try_except
  | |- appends _ _ (ret _) => apply appends_ret
  | |- appends _ _ (raise _) => apply appends_raise
  | |- appends _ _ (sys_exit _) => apply appends_sys_exit
  | |- appends _ _ (sleep _) => apply appends_sleep; side
  | |- appends _ _ (logger_log _ _) => apply appends_logger_log; side
  | |- appends _ _ (logger_debug _) => apply appends_logger_log; side
  | |- appends _ _ (logger_info _) => apply appends_logger_log; side
  | |- appends _ _ (logger_error _) => apply appends_logger_log; side
  | |- appends _ _ (logger_setLevel _) => apply appends_logger_setLevel; side
  | |- appends _ _ (rtm_connect _) => apply appends_rtm_connect; side
  | |- appends _ _ (rtm_read _) => apply appends_rtm_read; side
  | |- appends _ _ (rtm_send_message _ _ _) => apply appends_rtm_send_message; side
  | |- appends _ _ (api_call _ _) => apply appends_api_call; side
  | |- appends _ _ (for_each _ _) => apply appends_for_each; intros ?
  | |- appends _ _ (if ?b then _ else _) => destruct b
  | |- appends _ _ (match ?x with _ => _ end) => destruct x
  end.

(** *** The read loop makes no listing call *)

Ltac no_api_side :=
  solve [ intros ? ? ? ? ?; assumption
        | intros; reflexivity
        | intros; exact Logic.I
        | reflexivity ].

Lemma read_loop_no_api_call fuel channel channel_id retries sc :
  forall retry_count,
    appends (fun _ => True) (fun e => is_api_call e = false)
      (Main.read_loop fuel channel channel_id retries sc retry_count).
Proof.
  induction fuel as [|fuel IH]; intros r; simpl.
  - apply appends_out_of_fuel.
  - apply appends_bind; [|intros r'; apply IH].
    unfold Main.loop_pass, Main.handle_message, Main.py_get. cbv zeta.
    repeat appends_step no_api_side.
Qed.

(** X10.  The read loop only adds to the trace, and among what it adds
    there is no listing call: however often it reconnects, the channel id
    resolved at start is never resolved again. *)
Theorem read_loop_never_resolves_again :
  forall (fuel : nat) (channel channel_id : string) (retries : Z)
         (sc : SlackClient) (retry_count : Z) (w : world),
    exists added,
      trace (snd (Main.read_loop fuel channel channel_id retries sc retry_count w))
      = (trace w ++ added)%list
      /\ Forall (fun e => is_api_call e = false) added.
Proof.
  intros fuel channel channel_id retries sc r w.
  apply (read_loop_no_api_call fuel channel channel_id retries sc r w Logic.I).
Qed.

(** *** A logger set to [ERROR] stays there *)

Ltac silenced_side :=
  solve [ intros w w' _ Hl Hw; rewrite <- Hl; exact Hw
        | intros w Hw He; unfold isEnabledFor, effective_level in He;
          rewrite Hw in He; simpl in He; first [discriminate | reflexivity]
        | intros; reflexivity
        | intros; exact Logic.I
        | exact Logic.I ].

Lemma read_loop_silenced fuel channel channel_id retries sc :
  forall retry_count,
    appends (fun w => logger_level w = Some ERROR) error_or_silent
      (Main.read_loop fuel channel channel_id retries sc retry_count).
Proof.
  induction fuel as [|fuel IH]; intros r; simpl.
  - apply appends_out_of_fuel.
  - apply appends_bind; [|intros r'; apply IH].
    unfold Main.loop_pass, Main.handle_message, Main.py_get. cbv zeta.
    repeat appends_step silenced_side.
Qed.

(** X11.  Once a send has failed, the logger is at level [ERROR] and
    nothing in the loop puts it back: from then on the loop emits no
    record below that level, so that neither a later welcome nor a later
    reconnection is reported. *)
Theorem failed_send_silences_the_logger :
  forall (sc : SlackClient) (channel channel_id : string) (retries : Z),
    (forall message w,
        join_in channel_id message = true ->
        is_dict (dict_get message "user_profile") = true ->
        send_outcome_of sc (sends w) = NoSendCapability ->
        logger_level (snd (Main.handle_message message channel channel_id sc w))
        = Some ERROR)
    /\ (forall fuel retry_count w,
           logger_level w = Some ERROR ->
           let w' := snd (Main.read_loop fuel channel channel_id retries sc
                            retry_count w) in
           logger_level w' = Some ERROR
           /\ exists added,
                trace w' = (trace w ++ added)%list
                /\ Forall error_or_silent added).
Proof.
  intros sc channel channel_id retries. split.
  - intros message w Hj Hd Hs.
    now rewrite (handle_message_stale sc channel channel_id message w Hj Hd Hs).
  - intros fuel r w Hw.
    apply (read_loop_silenced fuel channel channel_id retries sc r w Hw).
Qed.

Lemma failed_send_silences_the_logger_witness :
  let w := mkWorld 1 1 1 INFO (Some ERROR) [] in
  let w' := snd (Main.read_loop 2 "general" "C123" 8 sc_back_at_third 0 w) in
  logger_level w' = Some ERROR
  /\ exists added,
       trace w' = (trace w ++ added)%list /\ Forall error_or_silent added.
Proof.
  apply (proj2 (failed_send_silences_the_logger sc_back_at_third "general" "C123" 8)
           2%nat 0 (mkWorld 1 1 1 INFO (Some ERROR) []) eq_refl).
Defined.

(** *** Without [-v] no record of level [DEBUG] *)






(* ===================================================================== *)
(** ** Further properties: the passes of the read loop *)
(* ===================================================================== *)

Ltac control_simpl :=
  cbn [fst snd trace];
  repeat (rewrite control_app; cbn [is_log negb]);
  rewrite ?app_nil_r, <- ?app_assoc; cbn [app].

(** X13.  A pass whose read signals the loss and whose reconnect attempt
    fails.  Below the ceiling it sleeps a sixteenth of a second, whatever
    [retry_count] is, and leaves [retry_count] one higher; at or above the
    ceiling it exits with the fatal message without sleeping.  In both
    cases it makes one read call and one connect call and nothing else. *)
Theorem failed_reconnect_pass :
  forall (sc : SlackClient) (channel channel_id : string) (retries : Z)
         (retry_count : Z) (w : world),
    rtm_read_outcome sc (reads w) = ConnectionClosed ->
    connect_outcome sc (connects w) = false ->
    let run := Main.loop_pass channel channel_id retries sc retry_count w in
    (retry_count < retries ->
     fst run = Return (retry_count + 1)
     /\ control (trace (snd run))
        = (control (trace w) ++ [EvRead; EvConnect false; EvSleep (1 # 16)])%list)
    /\ (retries <= retry_count ->
        fst run = Raise (SystemExit too_many)
        /\ control (trace (snd run))
           = (control (trace w) ++ [EvRead; EvConnect false])%list).
Proof.
  intros sc channel channel_id retries r w Hr Hc. cbv zeta.
  unfold Main.loop_pass, try_except, bind at 1, rtm_read. rewrite Hr.
  cbn [exn_eqb].
  unfold logger_error, logger_info, logger_log, rtm_connect, sleep, sys_exit,
    bind, emit, ret, raise.
  fold too_many. change (Qred (Main.backoff ^ 2 / 4)) with (1 # 16).
  split; intros Hlt.
  - replace (r >=? retries) with false
      by (symmetry; rewrite Z.geb_leb; apply Z.leb_gt; lia).
    repeat (destruct_scrutinee; cbn [fst snd connects reads negb trace] in * );
      try rewrite Hc in *; try discriminate;
      (split; [reflexivity|control_simpl; reflexivity]).
  - replace (r >=? retries) with true
      by (symmetry; apply Z.geb_le; lia).
    repeat (destruct_scrutinee; cbn [fst snd connects reads negb trace] in * );
      try rewrite Hc in *; try discriminate;
      (split; [reflexivity|control_simpl; reflexivity]).
Qed.

Lemma failed_reconnect_pass_witness :
  let run := Main.loop_pass "general" "C123" 8 sc_back_at_third 7
               (loop_entry sc_back_at_third 0) in
  fst run = Return (7 + 1)
  /\ control (trace (snd run))
     = (control (trace (loop_entry sc_back_at_third 0))
        ++ [EvRead; EvConnect false; EvSleep (1 # 16)])%list.
Proof.
  apply (proj1 (failed_reconnect_pass sc_back_at_third "general" "C123" 8 7
                  (loop_entry sc_back_at_third 0) eq_refl eq_refl)).
  reflexivity.
Defined.

(** X14.  A pass whose read signals the loss and whose reconnect attempt
    succeeds makes one read call and one connect call and nothing else: it
    does not sleep, so that the next read follows at once, and it leaves
    [retry_count] one higher. *)
Theorem successful_reconnect_pass :
  forall (sc : SlackClient) (channel channel_id : string) (retries : Z)
         (retry_count : Z) (w : world),
    rtm_read_outcome sc (reads w) = ConnectionClosed ->
    connect_outcome sc (connects w) = true ->
    let run := Main.loop_pass channel channel_id retries sc retry_count w in
    fst run = Return (retry_count + 1)
    /\ control (trace (snd run))
       = (control (trace w) ++ [EvRead; EvConnect true])%list.
Proof.
  intros sc channel channel_id retries r w Hr Hc. cbv zeta.
  unfold Main.loop_pass, try_except, bind at 1, rtm_read. rewrite Hr.
  cbn [exn_eqb].
  unfold logger_error, logger_info, logger_log, rtm_connect, sleep, sys_exit,
    bind, emit, ret, raise.
  repeat (destruct_scrutinee; cbn [fst snd connects reads negb trace] in * );
    try rewrite Hc in *; try discriminate;
    (split; [reflexivity|control_simpl; reflexivity]).
Qed.

Lemma successful_reconnect_pass_witness :
  let run := Main.loop_pass "general" "C123" 8 sc_back_at_third 2 twice_failed in
  fst run = Return (2 + 1)
  /\ control (trace (snd run))
     = (control (trace twice_failed) ++ [EvRead; EvConnect true])%list.
Proof.
  apply (successful_reconnect_pass sc_back_at_third "general" "C123" 8 2
           twice_failed eq_refl eq_refl).
Defined.

Lemma handle_message_control sc channel channel_id message w :
  control (trace (snd (Main.handle_message message channel channel_id sc w)))
  = (control (trace w)
     ++ if join_in channel_id message && is_dict (dict_get message "user_profile")
        then [welcome channel message] else [])%list.
Proof.
  unfold join_in, welcome. open_handler.
  destruct (Main.is_join _), (truthy _), (dict_get message "user_profile"),
    (py_eq_str _ channel_id); cbn;
    repeat (destruct_scrutinee; cbn);
    control_simpl; reflexivity.
Qed.

Lemma handle_batch_control sc channel channel_id batch :
  forall w,
    (forall m, In m batch -> unhandled m = false) ->
    control (trace (snd (handle_batch sc channel channel_id batch w)))
    = (control (trace w)
       ++ map (welcome channel) (filter (join_in channel_id) batch))%list.
Proof.
  induction batch as [|m batch IH]; intros w Hok.
  - simpl. now rewrite app_nil_r.
  - pose proof (handle_message_result sc channel channel_id m w) as Hr.
    pose proof (handle_message_control sc channel channel_id m w) as Hs.
    assert (Hm : unhandled m = false) by (apply Hok; now left).
    rewrite (unhandled_false_profile channel_id m Hm) in Hs.
    unfold unhandled in Hm. rewrite Hm in Hr.
    unfold handle_batch; simpl. unfold bind.
    destruct (Main.handle_message m channel channel_id sc w) as [[[]|e|] w1];
      try discriminate.
    simpl in Hs.
    specialize (IH w1 (fun m' Hin => Hok m' (or_intror Hin))).
    unfold handle_batch in IH. rewrite IH, Hs.
    destruct (join_in channel_id m); simpl;
      now rewrite <- ?app_assoc, ?app_nil_r.
Qed.

(** X15.  A pass whose read returns a batch none of whose events makes
    the handler raise: one read call, the welcomes of the batch in order,
    then half a second of sleep, and [retry_count] at 0.  For an empty
    batch that is a read and a sleep. *)
Theorem healthy_pass :
  forall (sc : SlackClient) (channel channel_id : string) (retries : Z)
         (retry_count : Z) (w : world) (batch : list message),
    rtm_read_outcome sc (reads w) = Events batch ->
    (forall m, In m batch -> unhandled m = false) ->
    let run := Main.loop_pass channel channel_id retries sc retry_count w in
    fst run = Return 0
    /\ control (trace (snd run))
       = (control (trace w)
          ++ EvRead :: map (welcome channel) (filter (join_in channel_id) batch)
          ++ [EvSleep (1 # 2)])%list.
Proof.
  intros sc channel channel_id retries r w batch Hread Hok. cbv zeta.
  rewrite (pass_healthy sc channel channel_id retries r w batch Hread).
  destruct (handle_batch_all_handled sc channel channel_id batch (after_read w) Hok)
    as [Hres _].
  pose proof (handle_batch_control sc channel channel_id batch (after_read w) Hok)
    as Hctl.
  destruct (handle_batch sc channel channel_id batch (after_read w))
    as [[[]|e|] w2]; try discriminate.
  simpl in Hctl. split; [reflexivity|].
  cbn [snd trace]. rewrite control_app, Hctl. unfold after_read. cbn [trace].
  rewrite control_app. cbn [is_log negb].
  now rewrite <- !app_assoc.
Qed.

Lemma healthy_pass_witness :
  let run := Main.loop_pass "general" "C123" 8
               (sc_healthy [ada_joins; ada_joins_elsewhere]) 3 initial_world in
  fst run = Return 0
  /\ control (trace (snd run))
     = [EvRead; welcome "general" ada_joins; EvSleep (1 # 2)].
Proof.
  apply (healthy_pass (sc_healthy [ada_joins; ada_joins_elsewhere]) "general" "C123"
           8 3 initial_world [ada_joins; ada_joins_elsewhere] eq_refl).
  intros m [<-|[<-|[]]]; reflexivity.
Defined.

(* ===================================================================== *)
(** ** Further properties: the loop as a whole *)
(* ===================================================================== *)

Lemma never_returns_bind {A B} (c : M A) (k : A -> M B) :
  (forall a, never_returns (k a)) -> never_returns (bind c k).
Proof.
  intros Hk w b. unfold bind.
  destruct (c w) as [[a|e|] w1]; simpl; try discriminate. apply Hk.
Qed.

Lemma never_returns_sys_exit {A} text : never_returns (@sys_exit A text).
Proof. intros w a. discriminate. Qed.

Lemma read_loop_never_returns fuel channel channel_id retries sc :
  forall retry_count,
    never_returns (Main.read_loop fuel channel channel_id retries sc retry_count).
Proof.
  induction fuel as [|fuel IH]; intros r; simpl.
  - intros w a. discriminate.
  - apply never_returns_bind. exact IH.
Qed.

(** X16.  The bot has no successful end: [cli] of [__main__] never returns,
    so that the process never exits with status 0.  It ends by one of the
    fatal exits or by an exception nobody handles, or it runs on. *)
Theorem bot_never_exits_cleanly :
  forall (tok : option string) (sc : SlackClient) (channel : string)
         (verbose : nat) (retries : Z) (announce : bool) (fuel : nat) (w : world),
    exit_status
      (fst (Main.cli tok sc channel verbose retries announce fuel w)) <> Some 0.
Proof.
  intros tok sc channel verbose retries announce fuel w.
  assert (H : never_returns (Main.cli tok sc channel verbose retries announce fuel)).
  { unfold Main.cli.
    repeat first
      [ apply never_returns_sys_exit
      | apply read_loop_never_returns
      | apply never_returns_bind; intros ?
      | match goal with
        | |- never_returns (if ?b then _ else _) => destruct b
        | |- never_returns (match ?x with _ => _ end) => destruct x
        end ]. }
  specialize (H w).
  destruct (fst (Main.cli tok sc channel verbose retries announce fuel w)) as [[]| |];
    simpl; [now elim (H tt)|discriminate|discriminate].
Qed.

Lemma passes_reconnecting sc channel channel_id retries n :
  forall retry_count w,
    (forall i, (i < n)%nat ->
               rtm_read_outcome sc (reads w + i) = ConnectionClosed) ->
    (forall i, (i < n)%nat -> connect_outcome sc (connects w + i) = true) ->
    exists w',
      passes sc channel channel_id retries n retry_count w
      = (Return (retry_count + Z.of_nat n), w')
      /\ connects w' = (connects w + n)%nat
      /\ reads w' = (reads w + n)%nat.
Proof.
  induction n as [|n IH]; intros r w Hr Hc.
  - exists w. simpl. unfold ret. rewrite Z.add_0_r, !Nat.add_0_r. auto.
  - assert (Hr0 : rtm_read_outcome sc (reads w) = ConnectionClosed).
    { specialize (Hr O). rewrite Nat.add_0_r in Hr. apply Hr. lia. }
    assert (Hc0 : connect_outcome sc (connects w) = true).
    { specialize (Hc O). rewrite Nat.add_0_r in Hc. apply Hc. lia. }
    destruct (pass_lost_reconnected sc channel channel_id retries r w Hr0 Hc0)
      as (Hres & Hcon & Hrd).
    destruct (Main.loop_pass channel channel_id retries sc r w) as [res w1] eqn:Hp.
    simpl in *. subst res.
    destruct (IH (r + 1) w1) as (w' & Hrun & Hc' & Hr').
    + intros i Hi. rewrite Hrd.
      replace (S (reads w) + i)%nat with (reads w + S i)%nat by lia.
      apply Hr. lia.
    + intros i Hi. rewrite Hcon.
      replace (S (connects w) + i)%nat with (connects w + S i)%nat by lia.
      apply Hc. lia.
    + exists w'. rewrite (bind_Return _ _ _ _ _ Hp), Hrun.
      split; [f_equal; f_equal; lia|]. split; lia.
Qed.

(** X17.  Successful reconnects use up the budget too.  When the
    connection is lost again right after each of [n] successful
    reconnects, with no complete pass in between, [retry_count] stands at
    [n]; if [n] has reached the ceiling, the first reconnect attempt that
    fails is fatal. *)
Theorem flapping_uses_up_the_budget :
  forall (sc : SlackClient) (channel channel_id : string) (retries : Z)
         (n : nat) (w : world),
    (forall i, (i <= n)%nat ->
               rtm_read_outcome sc (reads w + i) = ConnectionClosed) ->
    (forall i, (i < n)%nat -> connect_outcome sc (connects w + i) = true) ->
    connect_outcome sc (connects w + n) = false ->
    retries <= Z.of_nat n ->
    fst (passes sc channel channel_id retries n 0 w) = Return (Z.of_nat n)
    /\ fst (Main.read_loop (n + 1) channel channel_id retries sc 0 w)
       = Raise (SystemExit too_many).
Proof.
  intros sc channel channel_id retries n w Hr Hc Hfail Hceil.
  destruct (passes_reconnecting sc channel channel_id retries n 0 w)
    as (w' & Hrun & Hc' & Hr'); [intros i Hi; apply Hr; lia|exact Hc|].
  rewrite Z.add_0_l in Hrun. split; [now rewrite Hrun|].
  rewrite read_loop_passes, (bind_Return _ _ _ _ _ Hrun). simpl.
  rewrite <- Hc' in Hfail.
  assert (Hlost : rtm_read_outcome sc (reads w') = ConnectionClosed).
  { rewrite Hr'. apply Hr. lia. }
  destruct (pass_lost_failed sc channel channel_id retries (Z.of_nat n) w' Hlost Hfail)
    as (Hres & _ & _).
  replace (Z.of_nat n >=? retries) with true in Hres
    by (symmetry; apply Z.geb_le; lia).
  unfold bind.
  destruct (Main.loop_pass channel channel_id retries sc (Z.of_nat n) w')
    as [res w2].
  simpl in Hres. now subst res.
Qed.

Lemma flapping_uses_up_the_budget_witness :
  let sc := mkSlackClient (fun n => negb (Nat.eqb n 3)) (fun _ => ConnectionClosed)
              (fun _ => Sent) general_listing in
  fst (passes sc "general" "C123" 2 2 0 (loop_entry sc 0)) = Return (Z.of_nat 2)
  /\ fst (Main.read_loop (2 + 1) "general" "C123" 2 sc 0 (loop_entry sc 0))
     = Raise (SystemExit too_many).
Proof.
  apply (flapping_uses_up_the_budget
           (mkSlackClient (fun n => negb (Nat.eqb n 3)) (fun _ => ConnectionClosed)
              (fun _ => Sent) general_listing)
           "general" "C123" 2 2).
  - intros i _. reflexivity.
  - intros [|[|i]] Hi; [reflexivity|reflexivity|lia].
  - reflexivity.
  - lia.
Defined.

(* ===================================================================== *)
(** ** Further properties: the two programs *)
(* ===================================================================== *)

Lemma find_channel_id_run channel sc w :
  find_channel_id channel sc w
  = (fst (find_channel_id channel sc initial_world), listed w).
Proof.
  rewrite (surjective_pairing (find_channel_id channel sc w)).
  now rewrite find_channel_id_world,
    (find_channel_id_any_world sc channel w initial_world).
Qed.

Ltac open_cli :=
  unfold Main.cli, SendMessage.cli;
  unfold bind, setup_logging, rtm_connect, logger_info, logger_debug, logger_log,
    rtm_send_message, emit, sys_exit, raise, ret, isEnabledFor, effective_level.

(** X18.  Without a token, be the variable unset or empty, both programs
    stop with the message about the variable before they touch the
    service: nothing is added to the trace and no call is counted. *)
Theorem missing_token_is_fatal :
  forall (tok : option string) (sc : SlackClient) (channel : string)
         (verbose : nat) (retries : Z) (announce : bool)
         (message : option string) (fuel : nat) (w : world),
    token_missing tok = true ->
    (verbose <= 11)%nat ->
    Main.cli tok sc channel verbose retries announce fuel w
    = (Raise (SystemExit token_undefined), snd (setup_logging verbose w))
    /\ SendMessage.cli tok sc channel verbose retries message w
       = (Raise (SystemExit token_undefined), snd (setup_logging verbose w)).
Proof.
  intros tok sc channel verbose retries announce message fuel w Ht Hv.
  unfold Main.cli, SendMessage.cli.
  rewrite (proj2 (Nat.ltb_ge 11 verbose) Hv).
  destruct tok as [[|c t]|]; try discriminate; split; reflexivity.
Qed.

Lemma missing_token_is_fatal_witness :
  Main.cli (Some EmptyString) (sc_healthy []) "general" 3 8 true 5 initial_world
  = (Raise (SystemExit token_undefined), mkWorld 0 0 0 DEBUG None []).
Proof.
  refine (proj1 (missing_token_is_fatal (Some EmptyString) (sc_healthy []) "general"
                   3 8 true None 5 initial_world eq_refl _)).
  lia.
Defined.

(** X19.  When the first connect fails, both programs stop with the
    message about the connection after that one attempt: the retry budget
    is for reconnects, the first connect is not tried again, and no
    listing call is made. *)
Theorem first_connect_failure_is_fatal :
  forall (tok : option string) (sc : SlackClient) (channel : string)
         (verbose : nat) (retries : Z) (announce : bool)
         (message : option string) (fuel : nat) (w : world),
    token_missing tok = false ->
    (verbose <= 11)%nat ->
    connect_outcome sc (connects w) = false ->
    let run := Main.cli tok sc channel verbose retries announce fuel w in
    let once := SendMessage.cli tok sc channel verbose retries message w in
    fst run = Raise (SystemExit not_connected)
    /\ trace (snd run) = (trace w ++ [EvConnect false])%list
    /\ connects (snd run) = S (connects w)
    /\ fst once = Raise (SystemExit not_connected)
    /\ trace (snd once) = (trace w ++ [EvConnect false])%list
    /\ connects (snd once) = S (connects w).
Proof.
  intros tok sc channel verbose retries announce message fuel w Ht Hv Hc.
  cbv zeta. open_cli.
  rewrite (proj2 (Nat.ltb_ge 11 verbose) Hv).
  destruct tok as [[|c t]|]; try discriminate.
  cbn [connects reads sends trace root_level logger_level fst snd].
  rewrite Hc. cbn [fst snd trace connects]. repeat split.
Qed.

Lemma first_connect_failure_is_fatal_witness :
  let run := Main.cli token
               (mkSlackClient (fun _ => false) (fun _ => Events [])
                  (fun _ => Sent) general_listing)
               "general" 0 8 false 5 initial_world in
  fst run = Raise (SystemExit not_connected)
  /\ trace (snd run) = [EvConnect false].
Proof.
  destruct (first_connect_failure_is_fatal token
              (mkSlackClient (fun _ => false) (fun _ => Events [])
                 (fun _ => Sent) general_listing)
              "general" 0 8 false None 5 initial_world eq_refl)
    as (H1 & H2 & _); [lia|reflexivity|].
  split; [exact H1|exact H2].
Defined.

(** X20.  Started in a fresh interpreter with a token, an accepted
    verbosity, a connect that succeeds and a channel that resolves, the bot
    enters the read loop with [retry_count] at 0, having connected once,
    listed twice and, with [--announce] (the send returning), sent the
    greeting to the channel: the greeting is the one send before the first
    read, and without [--announce] there is none. *)
Theorem bot_enters_the_loop :
  forall (tok : option string) (sc : SlackClient) (channel channel_id : string)
         (verbose : nat) (retries : Z) (announce : bool) (fuel : nat),
    token_missing tok = false ->
    (verbose <= 11)%nat ->
    connect_outcome sc 0 = true ->
    fst (find_channel_id channel sc initial_world) = Return channel_id ->
    (announce = true -> send_outcome_of sc 0 = Sent) ->
    Main.cli tok sc channel verbose retries announce fuel initial_world
    = Main.read_loop fuel channel channel_id retries sc 0
        (entry_world channel channel_id verbose announce).
Proof.
  intros tok sc channel channel_id verbose retries announce fuel Ht Hv Hc Hres Hs.
  pose proof (find_channel_id_run channel sc) as Hf. rewrite Hres in Hf.
  unfold entry_world. open_cli.
  rewrite (proj2 (Nat.ltb_ge 11 verbose) Hv).
  destruct tok as [[|c t]|]; try discriminate.
  set (f := find_channel_id channel sc) in *. clearbody f.
  cbn [connects reads sends trace root_level logger_level initial_world fst snd].
  rewrite Hc.
  destruct announce; destruct (verbose <? 1)%nat; cbn; rewrite Hf; cbn;
    try rewrite (Hs eq_refl); reflexivity.
Qed.

Lemma bot_enters_the_loop_witness :
  Main.cli token (sc_healthy []) "general" 1 8 true 4 initial_world
  = Main.read_loop 4 "general" "C123" 8 (sc_healthy []) 0
      (entry_world "general" "C123" 1 true).
Proof.
  apply bot_enters_the_loop;
    first [reflexivity | lia | intros _; reflexivity].
Defined.

(** X21.  The greeting is sent outside any [try]: when its send call
    raises the missing-attribute error, the bot dies of it before its
    first read, where the same failure of a welcome is survived. *)
Theorem failed_greeting_is_fatal :
  forall (tok : option string) (sc : SlackClient) (channel channel_id : string)
         (verbose : nat) (retries : Z) (fuel : nat),
    token_missing tok = false ->
    (verbose <= 11)%nat ->
    connect_outcome sc 0 = true ->
    fst (find_channel_id channel sc initial_world) = Return channel_id ->
    send_outcome_of sc 0 = NoSendCapability ->
    let run := Main.cli tok sc channel verbose retries true fuel initial_world in
    fst run = Raise AttributeError
    /\ sent (trace (snd run)) = [EvSend channel Main.announce_text]
    /\ reads (snd run) = 0%nat.
Proof.
  intros tok sc channel channel_id verbose retries fuel Ht Hv Hc Hres Hs.
  pose proof (find_channel_id_run channel sc) as Hf. rewrite Hres in Hf.
  cbv zeta. open_cli.
  rewrite (proj2 (Nat.ltb_ge 11 verbose) Hv).
  destruct tok as [[|c t]|]; try discriminate.
  set (f := find_channel_id channel sc) in *. clearbody f.
  cbn [connects reads sends trace root_level logger_level initial_world fst snd].
  rewrite Hc.
  destruct (verbose <? 1)%nat; cbn; rewrite Hf; cbn; rewrite Hs; cbn;
    repeat split.
Qed.

Lemma failed_greeting_is_fatal_witness :
  fst (Main.cli token (sc_stale []) "general" 0 8 true 4 initial_world)
  = Raise AttributeError.
Proof.
  refine (proj1 (failed_greeting_is_fatal token (sc_stale []) "general" "C123"
                   0 8 4 eq_refl _ eq_refl eq_refl eq_refl)).
  lia.
Defined.

(** X22.  The one-shot program without a message, be the option absent or
    empty: it connects, resolves the channel, sends nothing and returns,
    which is exit status 0. *)
Theorem one_shot_without_message :
  forall (tok : option string) (sc : SlackClient) (channel channel_id : string)
         (verbose : nat) (retries : Z) (message : option string),
    token_missing tok = false ->
    (verbose <= 11)%nat ->
    connect_outcome sc 0 = true ->
    fst (find_channel_id channel sc initial_world) = Return channel_id ->
    message_given message = false ->
    let run := SendMessage.cli tok sc channel verbose retries message
                 initial_world in
    fst run = Return tt
    /\ exit_status (fst run) = Some 0
    /\ control (trace (snd run))
       = [EvConnect true; EvApiCall "channels.list"; EvApiCall "groups.list"].
Proof.
  intros tok sc channel channel_id verbose retries message Ht Hv Hc Hres Hm.
  pose proof (find_channel_id_run channel sc) as Hf. rewrite Hres in Hf.
  cbv zeta. open_cli.
  rewrite (proj2 (Nat.ltb_ge 11 verbose) Hv).
  destruct tok as [[|c t]|]; try discriminate.
  set (f := find_channel_id channel sc) in *. clearbody f.
  cbn [connects reads sends trace root_level logger_level initial_world fst snd].
  rewrite Hc.
  destruct message as [[|c' t']|]; try discriminate;
    destruct (verbose <? 1)%nat; cbn; rewrite Hf; cbn; repeat split.
Qed.

Lemma one_shot_without_message_witness :
  let run := SendMessage.cli token (sc_healthy []) "general" 0 8 (Some EmptyString)
               initial_world in
  fst run = Return tt
  /\ exit_status (fst run) = Some 0
  /\ control (trace (snd run))
     = [EvConnect true; EvApiCall "channels.list"; EvApiCall "groups.list"].
Proof.
  apply (one_shot_without_message token (sc_healthy []) "general" "C123" 0 8
           (Some EmptyString)); try reflexivity.
  lia.
Defined.

(** X23.  The one-shot program does not handle a send that raises: when
    the send call lacks the capability, the process dies of the
    [AttributeError], exit status 1, having made that one send call. *)
Theorem one_shot_send_failure :
  forall (tok : option string) (sc : SlackClient) (channel channel_id : string)
         (verbose : nat) (retries : Z) (message : option string),
    token_missing tok = false ->
    (verbose <= 11)%nat ->
    connect_outcome sc 0 = true ->
    fst (find_channel_id channel sc initial_world) = Return channel_id ->
    message_given message = true ->
    send_outcome_of sc 0 = NoSendCapability ->
    let run := SendMessage.cli tok sc channel verbose retries message
                 initial_world in
    fst run = Raise AttributeError
    /\ exit_status (fst run) = Some 1
    /\ sends (snd run) = 1%nat.
Proof.
  intros tok sc channel channel_id verbose retries message Ht Hv Hc Hres Hm Hs.
  pose proof (find_channel_id_run channel sc) as Hf. rewrite Hres in Hf.
  cbv zeta. open_cli.
  rewrite (proj2 (Nat.ltb_ge 11 verbose) Hv).
  destruct tok as [[|c t]|]; try discriminate.
  set (f := find_channel_id channel sc) in *. clearbody f.
  cbn [connects reads sends trace root_level logger_level initial_world fst snd].
  rewrite Hc.
  destruct message as [[|c' t']|]; try discriminate;
    destruct (verbose <? 1)%nat; cbn; rewrite Hf; cbn; rewrite Hs; cbn;
    repeat split.
Qed.

Lemma one_shot_send_failure_witness :
  let run := SendMessage.cli token (sc_stale []) "general" 0 8 (Some "hi")
               initial_world in
  fst run = Raise AttributeError
  /\ exit_status (fst run) = Some 1
  /\ sends (snd run) = 1%nat.
Proof.
  apply (one_shot_send_failure token (sc_stale []) "general" "C123" 0 8 (Some "hi"));
    try reflexivity.
  lia.
Defined.

Ltac bounded_done :=
  unfold listed; cbn; (split; [lia|]); (split; [reflexivity|]); (split; [lia|]);
  first [left; reflexivity | right; split; reflexivity].

(** X24.  Whatever its inputs and whatever the service does, the one-shot
    program makes at most one connect call and at most one send call,
    never reads, and lists channels only after a connect that
    succeeded. *)
Theorem one_shot_is_bounded :
  forall (tok : option string) (sc : SlackClient) (channel : string)
         (verbose : nat) (retries : Z) (message : option string),
    let run := SendMessage.cli tok sc channel verbose retries message
                 initial_world in
    (connects (snd run) <= 1)%nat
    /\ reads (snd run) = 0%nat
    /\ (sends (snd run) <= 1)%nat
    /\ (filter is_api_call (trace (snd run)) = []
        \/ (connect_outcome sc 0 = true
            /\ filter is_api_call (trace (snd run))
               = [EvApiCall "channels.list"; EvApiCall "groups.list"])).
Proof.
  intros tok sc channel verbose retries message.
  pose proof (find_channel_id_run channel sc) as Hf.
  cbv zeta. open_cli.
  set (f := find_channel_id channel sc) in *. clearbody f.
  destruct (11 <? verbose)%nat; [bounded_done|].
  destruct tok as [[|c t]|]; [bounded_done| |bounded_done].
  cbn [connects reads sends trace root_level logger_level initial_world fst snd].
  destruct (connect_outcome sc 0); [|bounded_done].
  destruct (verbose <? 1)%nat; cbn; rewrite Hf;
    (destruct (fst _) as [cid|e|]; [|bounded_done|bounded_done]);
    (destruct message as [[|c' t']|]; [bounded_done| |bounded_done]);
    unfold listed; cbn; destruct (send_outcome_of sc 0); bounded_done.
Qed.

(** X25.  When the channel does not resolve, for whichever reason, both
    programs end as the resolver does, before any send call and any read:
    with [--announce] the greeting is not sent. *)
Theorem unresolved_channel_is_fatal :
  forall (tok : option string) (sc : SlackClient) (channel : string)
         (verbose : nat) (retries : Z) (announce : bool)
         (message : option string) (fuel : nat) (e : exn),
    token_missing tok = false ->
    (verbose <= 11)%nat ->
    connect_outcome sc 0 = true ->
    fst (find_channel_id channel sc initial_world) = Raise e ->
    let run := Main.cli tok sc channel verbose retries announce fuel
                 initial_world in
    let once := SendMessage.cli tok sc channel verbose retries message
                  initial_world in
    fst run = Raise e
    /\ sends (snd run) = 0%nat /\ reads (snd run) = 0%nat
    /\ fst once = Raise e
    /\ sends (snd once) = 0%nat.
Proof.
  intros tok sc channel verbose retries announce message fuel e Ht Hv Hc Hres.
  pose proof (find_channel_id_run channel sc) as Hf. rewrite Hres in Hf.
  cbv zeta. open_cli.
  rewrite (proj2 (Nat.ltb_ge 11 verbose) Hv).
  destruct tok as [[|c t]|]; try discriminate.
  set (f := find_channel_id channel sc) in *. clearbody f.
  cbn [connects reads sends trace root_level logger_level initial_world fst snd].
  rewrite Hc.
  destruct (verbose <? 1)%nat; cbn; rewrite !Hf; cbn; repeat split.
Qed.

Lemma unresolved_channel_is_fatal_witness :
  let run := Main.cli token (sc_healthy []) "nowhere" 0 8 true 5 initial_world in
  fst run = Raise (SystemExit (not_found "nowhere"))
  /\ sends (snd run) = 0%nat /\ reads (snd run) = 0%nat.
Proof.
  destruct (unresolved_channel_is_fatal token (sc_healthy []) "nowhere" 0 8 true
              None 5 (SystemExit (not_found "nowhere")) eq_refl)
    as (H1 & H2 & H3 & _); [lia|reflexivity|reflexivity|].
  split; [exact H1|]. split; [exact H2|exact H3].
Defined.

(** X26.  The handler raises exactly on a join with a user whose
    [user_profile] is no dict, whatever the channel of the event and
    whatever the send call would do: the profile is read before the
    channel is compared.  On every other event it returns. *)
Theorem handler_raises_exactly_when_unhandled :
  forall (sc : SlackClient) (channel channel_id : string) (message : message)
         (w : world),
    fst (Main.handle_message message channel channel_id sc w)
    = (if unhandled message then Raise AttributeError else Return tt)
    /\ (unhandled message = true ->
        Main.handle_message message channel channel_id sc w
        = (Raise AttributeError, debugged message w)).
Proof.
  intros sc channel channel_id message w. split.
  - apply (handle_message_result sc channel channel_id message w).
  - unfold unhandled, debugged. intros H.
    apply andb_prop in H as [H Hd]. open_handler. rewrite H.
    destruct (dict_get message "user_profile"); try discriminate;
      destruct (isEnabledFor DEBUG w); reflexivity.
Qed.

Lemma handler_raises_exactly_when_unhandled_witness :
  Main.handle_message
    [("subtype", PStr "group_join"); ("channel", PStr "C999"); ("user", PStr "U1");
     ("user_profile", PStr "Ada")]
    "general" "C123" (sc_healthy []) initial_world
  = (Raise AttributeError,
     debugged [("subtype", PStr "group_join"); ("channel", PStr "C999");
               ("user", PStr "U1"); ("user_profile", PStr "Ada")]
       initial_world).
Proof.
  apply (proj2 (handler_raises_exactly_when_unhandled (sc_healthy []) "general"
                  "C123" _ initial_world)).
  reflexivity.
Defined.

(** *** Where the send calls go *)

Lemma appends_setup_logging (I : world -> Prop) (P : event -> Prop) verbose :
  (forall w, I w -> I (snd (setup_logging verbose w))) ->
  appends I P (setup_logging verbose).
Proof.
  intros H w Hw. split; [now apply H|].
  exists []. simpl. now rewrite app_nil_r.
Qed.

Ltac sends_side :=
  solve [ intros ? ? ? ? ?; exact Logic.I
        | intros; exact Logic.I
        | exact Logic.I
        | split; [reflexivity|left; reflexivity]
        | split; [reflexivity|right; eexists; reflexivity]
        | split; reflexivity ].

Lemma read_loop_sends fuel channel channel_id retries sc :
  forall retry_count,
    appends (fun _ => True) (bot_send_to channel)
      (Main.read_loop fuel channel channel_id retries sc retry_count).
Proof.
  induction fuel as [|fuel IH]; intros r; simpl.
  - apply appends_out_of_fuel.
  - apply appends_bind; [|intros r'; apply IH].
    unfold Main.loop_pass, Main.handle_message, Main.py_get. cbv zeta.
    repeat appends_step sends_side.
Qed.

(** X27.  Every send call either program makes is addressed to the
    configured channel, by its name.  The bot sends nothing but the
    greeting and welcomes; the one-shot program sends nothing but the
    message it was given. *)
Theorem sends_go_to_the_configured_channel :
  forall (tok : option string) (sc : SlackClient) (channel : string)
         (verbose : nat) (retries : Z) (announce : bool)
         (message : option string) (fuel : nat) (w : world),
    (exists added,
        trace (snd (Main.cli tok sc channel verbose retries announce fuel w))
        = (trace w ++ added)%list
        /\ Forall (bot_send_to channel) added)
    /\ (exists added,
           trace (snd (SendMessage.cli tok sc channel verbose retries message w))
           = (trace w ++ added)%list
           /\ Forall (one_shot_send_to channel message) added).
Proof.
  intros tok sc channel verbose retries announce message fuel w. split.
  - assert (H : appends (fun _ => True) (bot_send_to channel)
                  (Main.cli tok sc channel verbose retries announce fuel)).
    { unfold Main.cli, find_channel_id, listing_add. cbv zeta.
      repeat first
        [ apply read_loop_sends
        | apply appends_setup_logging; sends_side
        | appends_step sends_side ]. }
    apply (H w Logic.I).
  - assert (H : appends (fun _ => True) (one_shot_send_to channel message)
                  (SendMessage.cli tok sc channel verbose retries message)).
    { unfold SendMessage.cli, find_channel_id, listing_add. cbv zeta.
      repeat first
        [ apply appends_setup_logging; sends_side
        | appends_step sends_side ]. }
    apply (H w Logic.I).
Qed.
